(** * The VOLTTRON auth service (volttron/services/auth/auth_service.py)

    A shallow embedding of [isregex] and of the [VolttronAuthService]
    methods that bootstrap policy, provision and remove agents, and merge
    agent authorizations, together with the collaborators they call.

    Python sets are [gset], dicts are [gmap], keyword arguments with a
    [None] default are [option].  Python code that may raise runs in a
    state-and-exception monad that keeps the mutations made before the
    exception, as the interpreter does. *)

From stdpp Require Import gmap strings list fin_maps.
From Stdlib Require Import Ascii ZArith.

Open Scope string_scope.

(** ** Exceptions and outcomes *)

Inductive Exception : Type :=
| IdentityNotFound (identity : string)   (* volttron.types.auth.auth_credentials *)
| NotFound (name : string)               (* unknown role, group or agent record *)
| Unreachable                            (* volttron.client.vip.agent *)
| RemoteError                            (* volttron.utils.jsonrpc *)
| Timeout                                (* gevent: [.get(timeout=...)] expired *)
| TypeError                              (* builtin *)
| AttributeError                         (* builtin *)
| IndexError                             (* builtin *)
| OtherError (name : string).

#[global] Instance Exception_eq_dec : EqDecision Exception.
Proof. solve_decision. Defined.

Inductive Outcome (A : Type) : Type :=
| Return (a : A)
| Raise (e : Exception).
Arguments Return {A} a.
Arguments Raise {A} e.

#[global] Instance Outcome_eq_dec {A} `{EqDecision A} : EqDecision (Outcome A).
Proof. solve_decision. Defined.

#[global] Instance Outcome_ret : MRet Outcome := λ A a, Return a.
#[global] Instance Outcome_bind : MBind Outcome := λ A B f m,
  match m with
  | Return a => f a
  | Raise e => Raise e
  end.

Definition raised {A} (o : Outcome A) : bool :=
  match o with
  | Return _ => false
  | Raise _ => true
  end.

(** ** Python string indexing *)

Definition len (obj : string) : Z := Z.of_nat (String.length obj).

(** [obj[i]]: a negative index counts from the end, an index out of range
    raises [IndexError]. *)
Definition getitem (obj : string) (i : Z) : Outcome ascii :=
  let j := if (i <? 0)%Z then (i + len obj)%Z else i in
  if ((0 <=? j)%Z && (j <? len obj)%Z)%bool then
    match String.get (Z.to_nat j) obj with
    | Some c => Return c
    | None => Raise IndexError
    end
  else Raise IndexError.

(** ** [isregex]

    [return len(obj) > 1 and obj[0] == obj[-1] == "/"]: the [and] guards the
    indexing, and the chained comparison reads [obj[0]] and [obj[-1]] once
    each, comparing the second with ["/"] only when the first two agree. *)
Definition isregex (obj : string) : Outcome bool :=
  if (1 <? len obj)%Z then
    a ← getitem obj 0;
    b ← getitem obj (-1);
    if Ascii.eqb a b then Return (Ascii.eqb b "/"%char) else Return false
  else Return false.

(** ** The state-and-exception monad

    A computation over a mutable object of type [S]: it returns or raises,
    and in both cases leaves the object as mutated so far. *)

Definition Py (S A : Type) : Type := S → Outcome A * S.

#[global] Instance Py_ret {S} : MRet (Py S) := λ A a s, (Return a, s).
#[global] Instance Py_bind {S} : MBind (Py S) := λ A B f m s,
  match m s with
  | (Return a, s') => f a s'
  | (Raise e, s') => (Raise e, s')
  end.

Definition throw {S A} (e : Exception) : Py S A := λ s, (Raise e, s).
Definition gets {S A} (f : S → A) : Py S A := λ s, (Return (f s), s).
Definition modify {S} (f : S → S) : Py S unit := λ s, (Return (), f s).

(** [try: body / except ...: handler]: [handler e] is [None] when no
    [except] clause matches [e], which then propagates. *)
Definition try_except {S A} (body : Py S A) (handler : Exception → option (Py S A)) : Py S A :=
  λ s, match body s with
       | (Return a, s') => (Return a, s')
       | (Raise e, s') =>
           match handler e with
           | Some h => h s'
           | None => (Raise e, s')
           end
       end.

(** [for x in l: body]: an exception leaves the loop. *)
Fixpoint for_each {S A} (l : list A) (body : A → Py S unit) : Py S unit :=
  match l with
  | [] => mret ()
  | x :: l' => body x ;; for_each l' body
  end.

(** ** The authorization data model (volttron.types.auth.authz_types)

    The constructors the service calls.  A [param_restrictions] left out
    is the empty dict; [RPCCapabilities], [PubsubCapabilities] and
    [AgentRoles] wrap the collection they are given. *)

Abbreviation Identity := string (only parsing).

Record RPCCapability := mkRPCCapability {
  resource : string;
  param_restrictions : gmap string string }.

Record PubsubCapability := mkPubsubCapability {
  topic_pattern : string;
  topic_access : string }.

Record AgentRole := mkAgentRole {
  role_name : string;
  role_param_restrictions : gmap string string }.

#[global] Instance RPCCapability_eq_dec : EqDecision RPCCapability.
Proof. solve_decision. Defined.
#[global] Instance PubsubCapability_eq_dec : EqDecision PubsubCapability.
Proof. solve_decision. Defined.
#[global] Instance AgentRole_eq_dec : EqDecision AgentRole.
Proof. solve_decision. Defined.

#[global] Instance RPCCapability_countable : Countable RPCCapability :=
  inj_countable' (λ c, (resource c, param_restrictions c))
                 (λ p, mkRPCCapability p.1 p.2)
                 (λ c, match c with mkRPCCapability _ _ => eq_refl end).
#[global] Instance PubsubCapability_countable : Countable PubsubCapability :=
  inj_countable' (λ c, (topic_pattern c, topic_access c))
                 (λ p, mkPubsubCapability p.1 p.2)
                 (λ c, match c with mkPubsubCapability _ _ => eq_refl end).
#[global] Instance AgentRole_countable : Countable AgentRole :=
  inj_countable' (λ r, (role_name r, role_param_restrictions r))
                 (λ p, mkAgentRole p.1 p.2)
                 (λ r, match r with mkAgentRole _ _ => eq_refl end).

Abbreviation RPCCapabilities := (gset RPCCapability) (only parsing).
Abbreviation PubsubCapabilities := (gset PubsubCapability) (only parsing).
Abbreviation AgentRoles := (gset AgentRole) (only parsing).

(** What [get_agent_capabilities] answers. *)
Record Capabilities := mkCapabilities {
  rpc_capabilities : gset RPCCapability;
  pubsub_capabilities : gset PubsubCapability }.

#[global] Instance Capabilities_eq_dec : EqDecision Capabilities.
Proof. solve_decision. Defined.

(** Python truth values of the objects the service tests. *)
Definition truthy_capabilities (c : Capabilities) : bool :=
  negb (bool_decide (rpc_capabilities c = ∅ ∧ pubsub_capabilities c = ∅)).

Definition truthy_set (o : option (gset string)) : bool :=
  match o with
  | Some s => negb (bool_decide (s = ∅))
  | None => false
  end.

(** ** Credentials (volttron.types.auth.auth_credentials) *)

Record Credentials := mkCredentials {
  identity : Identity;
  secret : nat }.

#[global] Instance Credentials_eq_dec : EqDecision Credentials.
Proof. solve_decision. Defined.

(** ** The collaborators' interfaces

    The service is handed a credentials store, a credentials creator and an
    authorization manager; it knows them through these abstract classes
    only. *)

Module CredentialsStore.
Class t (CS : Type) := {
  retrieve_credentials : Identity → Py CS Credentials;
  store_credentials : Credentials → Py CS unit;
  remove_credentials : Identity → Py CS unit }.
End CredentialsStore.

Module CredentialsCreator.
Class t (CC : Type) := {
  create : Identity → Py CC Credentials }.
End CredentialsCreator.

Module AuthorizationManager.
Class t (AM : Type) := {
  create_or_merge_role :
    string → option RPCCapabilities → option PubsubCapabilities → Py AM bool;
  create_or_merge_agent_group :
    string → gset Identity → option AgentRoles →
    option RPCCapabilities → option PubsubCapabilities → Py AM bool;
  create_or_merge_agent_authz :
    Identity → option (gset string) → option AgentRoles →
    option RPCCapabilities → option PubsubCapabilities → option string → Py AM bool;
  get_agent_capabilities : Identity → Py AM Capabilities;
  get_protected_rpcs : Identity → Py AM (gset string);
  check_rpc_authorization : Identity → string → gmap string string → Py AM bool;
  remove_agent_authorization : Identity → Py AM bool }.
End AuthorizationManager.

(** The constants of volttron.client.known_identities that the service
    imports; their values are not part of this repository. *)
Class KnownIdentities := {
  AUTH : Identity;
  CONFIGURATION_STORE : Identity;
  CONTROL : Identity;
  CONTROL_CONNECTION : Identity;
  PLATFORM : Identity;
  PLATFORM_HEALTH : Identity }.

(** A call issued through [self.vip.rpc.call(peer, method, args).get(timeout)]. *)
Record RpcCall := mkRpcCall {
  rpc_peer : Identity;
  rpc_method : string;
  rpc_args : option (gset string);
  rpc_timeout : nat }.

#[global] Instance RpcCall_eq_dec : EqDecision RpcCall.
Proof. solve_decision. Defined.

(** ** [VolttronAuthService] *)

Section VolttronAuthService.
Context {CS CC AM : Type}.
Context {store_ops : CredentialsStore.t CS} {creator_ops : CredentialsCreator.t CC}.
Context {manager_ops : AuthorizationManager.t AM} {known : KnownIdentities}.

(** How the peer answers a call: the result of [.get(timeout=...)]. *)
Variable rpc_get : RpcCall → Outcome unit.

(** The attributes of [self] that the methods below read or write.
    [_authz_manager] may be [None]; [peers_list] is
    [self.vip.peerlist.peers_list]; [rpc_calls] records the calls
    issued through [self.vip.rpc], [debug_log] the lines given to
    [_log.debug]. *)
Record VolttronAuthService := mkService {
  _credentials_store : CS;
  _credentials_creator : CC;
  _authz_manager : option AM;
  peers_list : list Identity;
  rpc_calls : list RpcCall;
  debug_log : list string }.

Definition on_credentials_store {A} (c : Py CS A) : Py VolttronAuthService A :=
  λ self, let '(o, cs) := c (_credentials_store self) in
          (o, mkService cs (_credentials_creator self) (_authz_manager self)
                        (peers_list self) (rpc_calls self) (debug_log self)).

Definition on_credentials_creator {A} (c : Py CC A) : Py VolttronAuthService A :=
  λ self, let '(o, cc) := c (_credentials_creator self) in
          (o, mkService (_credentials_store self) cc (_authz_manager self)
                        (peers_list self) (rpc_calls self) (debug_log self)).

(** A method call on [self._authz_manager]: on [None] the attribute
    lookup raises [AttributeError]. *)
Definition on_authz_manager {A} (c : Py AM A) : Py VolttronAuthService A :=
  λ self, match _authz_manager self with
          | None => (Raise AttributeError, self)
          | Some am =>
              let '(o, am') := c am in
              (o, mkService (_credentials_store self) (_credentials_creator self) (Some am')
                            (peers_list self) (rpc_calls self) (debug_log self))
          end.

Definition vip_rpc_call (peer : Identity) (method : string)
    (args : option (gset string)) (timeout : nat) : Py VolttronAuthService unit :=
  λ self, let call := mkRpcCall peer method args timeout in
          (rpc_get call,
           mkService (_credentials_store self) (_credentials_creator self) (_authz_manager self)
                     (peers_list self) (rpc_calls self ++ [call]) (debug_log self)).

Definition _log_debug (line : string) : Py VolttronAuthService unit :=
  modify (λ self,
    mkService (_credentials_store self) (_credentials_creator self) (_authz_manager self)
              (peers_list self) (rpc_calls self) (debug_log self ++ [line])).

Definition volttron_services : list Identity :=
  [CONFIGURATION_STORE; AUTH; CONTROL_CONNECTION; CONTROL; PLATFORM; PLATFORM_HEALTH].

Definition init_comments : string := "Automatically added by init of auth service".

(** [__init__], up to the call of [super().__init__] (the agent's own
    set-up, which touches none of the attributes above). *)
Definition __init__ : Py VolttronAuthService unit :=
  for_each volttron_services (λ k,
    try_except
      (on_credentials_store (CredentialsStore.retrieve_credentials k) ;; mret ())
      (λ e, match e with
            | IdentityNotFound _ =>
                Some (creds ← on_credentials_creator (CredentialsCreator.create k);
                      on_credentials_store (CredentialsStore.store_credentials creds))
            | _ => None
            end)) ;;
  manager ← gets _authz_manager;
  (if manager is Some _ then
     on_authz_manager (AuthorizationManager.create_or_merge_role
       "default_rpc_capabilities"
       (Some {[ mkRPCCapability (CONFIGURATION_STORE +:+ ".initialize_configs") ∅;
                mkRPCCapability (CONFIGURATION_STORE +:+ ".set_config") ∅;
                mkRPCCapability (CONFIGURATION_STORE +:+ ".delete_store") ∅;
                mkRPCCapability (CONFIGURATION_STORE +:+ ".delete_config") ∅ ]})
       None) ;;
     on_authz_manager (AuthorizationManager.create_or_merge_role
       "sync_agent_config"
       (Some {[ mkRPCCapability "config.store.config_update" ∅;
                mkRPCCapability "config.store.initial_update" ∅ ]})
       None) ;;
     on_authz_manager (AuthorizationManager.create_or_merge_role
       "admin"
       (Some {[ mkRPCCapability "/.*/" ∅ ]})
       (Some {[ mkPubsubCapability "/.*/" "pubsub" ]})) ;;
     for_each volttron_services (λ k,
       (if bool_decide (k = CONFIGURATION_STORE) then
          on_authz_manager (AuthorizationManager.create_or_merge_agent_authz k
            (Some {[ "set_config"; "delete_config"; "delete_store"; "initialize_configs";
                     "config_update"; "initial_config" ]})
            None None None (Some init_comments)) ;; mret ()
        else mret ()) ;;
       (if bool_decide (k = AUTH) then
          on_authz_manager (AuthorizationManager.create_or_merge_agent_authz k
            (Some {[ "create_agent"; "remove_agent"; "create_or_merge_role";
                     "create_or_merge_agent_group"; "create_or_merge_agent_authz";
                     "create_protected_topics"; "remove_agents_from_group";
                     "add_agents_to_group"; "remove_protected_topics";
                     "remove_agent_authorization"; "remove_agent_group"; "remove_role" ]})
            None None None (Some init_comments)) ;; mret ()
        else
          on_authz_manager (AuthorizationManager.create_or_merge_agent_authz k
            None None None None (Some init_comments)) ;; mret ())) ;;
     on_authz_manager (AuthorizationManager.create_or_merge_agent_group
       "admin_users" (list_to_set volttron_services)
       (Some {[ mkAgentRole "admin" ∅ ]}) None None) ;;
     mret ()
   else mret ()) ;;
  my_creds ← on_credentials_store (CredentialsStore.retrieve_credentials AUTH);
  mret ().

Definition create_agent (identity : Identity) : Py VolttronAuthService bool :=
  try_except
    (on_credentials_store (CredentialsStore.retrieve_credentials identity) ;; mret ())
    (λ e, match e with
          | IdentityNotFound _ =>
              Some (creds ← on_credentials_creator (CredentialsCreator.create identity);
                    on_credentials_store (CredentialsStore.store_credentials creds))
          | _ => None
          end) ;;
  capabilities ← on_authz_manager (AuthorizationManager.get_agent_capabilities identity);
  (if negb (truthy_capabilities capabilities) then
     on_authz_manager (AuthorizationManager.create_or_merge_agent_authz identity
       (Some {[ "config.update"; "config.initial_update";
                "rpc.add_protected_rpcs"; "rpc.remove_protected_rpcs" ]})
       (Some {[ mkAgentRole "default_rpc_capabilities" {[ "identity" := identity ]} ]})
       None None (Some "default authorization for new user")) ;; mret ()
   else mret ()) ;;
  mret true.

Definition get_agent_capabilities (identity : Identity) : Py VolttronAuthService Capabilities :=
  on_authz_manager (AuthorizationManager.get_agent_capabilities identity).

Definition remove_agent (identity : Identity) : Py VolttronAuthService bool :=
  on_credentials_store (CredentialsStore.remove_credentials identity) ;;
  on_authz_manager (AuthorizationManager.remove_agent_authorization identity) ;;
  mret true.

Definition get_protected_rpcs (identity : Identity) : Py VolttronAuthService (gset string) :=
  on_authz_manager (AuthorizationManager.get_protected_rpcs identity).

Definition check_rpc_authorization (identity : Identity) (method_name : string)
    (method_args : gmap string string) : Py VolttronAuthService bool :=
  on_authz_manager
    (AuthorizationManager.check_rpc_authorization identity method_name method_args).

(** In the [except RemoteError] clause the code raises a tuple, which
    is not an exception: the interpreter raises [TypeError] instead. *)
Definition create_or_merge_agent_authz (identity : Identity)
    (protected_rpcs : option (gset string)) (roles : option AgentRoles)
    (rpc_capabilities : option RPCCapabilities)
    (pubsub_capabilities : option PubsubCapabilities)
    (comments : option string) : Py VolttronAuthService bool :=
  result ← on_authz_manager (AuthorizationManager.create_or_merge_agent_authz identity
              protected_rpcs roles rpc_capabilities pubsub_capabilities comments);
  (if result && truthy_set protected_rpcs then
     peers ← gets peers_list;
     if bool_decide (identity ∈ peers) then
       try_except
         (vip_rpc_call identity "rpc.add_protected_rpcs" protected_rpcs 5)
         (λ e, match e with
               | Unreachable =>
                   Some (_log_debug ("Agent " +:+ identity +:+ " is not running. " +:+
                           "Authorization changes will get applied on agent start"))
               | RemoteError => Some (throw TypeError)
               | _ => None
               end)
     else mret ()
   else mret ()) ;;
  mret result.

End VolttronAuthService.

(** ** The other methods of [VolttronAuthService] *)

Section VolttronAuthService_credentials.
Context {CS CC AM : Type}.
Context {store_ops : CredentialsStore.t CS} {creator_ops : CredentialsCreator.t CC}.
Context {manager_ops : AuthorizationManager.t AM}.

Definition add_credentials (credentials : Credentials) :
    Py (VolttronAuthService (CS := CS) (CC := CC) (AM := AM)) unit :=
  on_credentials_store (CredentialsStore.store_credentials credentials).

(** [remove_credentials] is given credentials and removes by their identity. *)
Definition remove_credentials (credentials : Credentials) :
    Py (VolttronAuthService (CS := CS) (CC := CC) (AM := AM)) unit :=
  on_credentials_store (CredentialsStore.remove_credentials (identity credentials)).

Definition is_credentials (identity : Identity) :
    Py (VolttronAuthService (CS := CS) (CC := CC) (AM := AM)) bool :=
  try_except
    (on_credentials_store (CredentialsStore.retrieve_credentials identity) ;; mret true)
    (λ e, match e with
          | IdentityNotFound _ => Some (mret false)
          | _ => None
          end).

Definition has_credentials_for (identity : Identity) :
    Py (VolttronAuthService (CS := CS) (CC := CC) (AM := AM)) bool :=
  is_credentials identity.

Definition create_or_merge_role (name : string)
    (rpc_capabilities : option RPCCapabilities)
    (pubsub_capabilities : option PubsubCapabilities) :
    Py (VolttronAuthService (CS := CS) (CC := CC) (AM := AM)) bool :=
  on_authz_manager
    (AuthorizationManager.create_or_merge_role name rpc_capabilities pubsub_capabilities).

(** The [roles] argument is handed to the manager as [agent_roles]. *)
Definition create_or_merge_agent_group (name : string) (identities : gset Identity)
    (roles : option AgentRoles) (rpc_capabilities : option RPCCapabilities)
    (pubsub_capabilities : option PubsubCapabilities) :
    Py (VolttronAuthService (CS := CS) (CC := CC) (AM := AM)) bool :=
  on_authz_manager
    (AuthorizationManager.create_or_merge_agent_group name identities roles
       rpc_capabilities pubsub_capabilities).

Definition remove_agent_authorization (identity : Identity) :
    Py (VolttronAuthService (CS := CS) (CC := CC) (AM := AM)) bool :=
  on_authz_manager (AuthorizationManager.remove_agent_authorization identity).

End VolttronAuthService_credentials.

(** ** The Policy Store and Authorization Manager *)

#[global] Instance Capabilities_empty : Empty Capabilities := mkCapabilities ∅ ∅.
#[global] Instance Capabilities_union : Union Capabilities := λ c1 c2,
  mkCapabilities (rpc_capabilities c1 ∪ rpc_capabilities c2)
                 (pubsub_capabilities c1 ∪ pubsub_capabilities c2).

Module PolicyStore.

(** Modelled from the spec: the data model of section 3 that the
    Authorization Manager holds (roles, agent groups, per-identity
    authorization records, and the store that owns them); the manager is
    not among this repository's sources. *)
Record Role := mkRole {
  role_rpc_capabilities : gset RPCCapability;
  role_pubsub_capabilities : gset PubsubCapability }.

Record AgentGroup := mkAgentGroup {
  identities : gset Identity;
  group_agent_roles : gset AgentRole;
  group_rpc_capabilities : gset RPCCapability;
  group_pubsub_capabilities : gset PubsubCapability }.

Record AgentAuthorization := mkAgentAuthorization {
  protected_rpcs : gset string;
  agent_roles : gset AgentRole;
  agent_rpc_capabilities : gset RPCCapability;
  agent_pubsub_capabilities : gset PubsubCapability;
  comments : option string }.

Record t := mkStore {
  roles : gmap string Role;
  agent_groups : gmap string AgentGroup;
  agents : gmap Identity AgentAuthorization }.

#[export] Instance Role_eq_dec : EqDecision Role.
Proof. solve_decision. Defined.
#[export] Instance AgentGroup_eq_dec : EqDecision AgentGroup.
Proof. solve_decision. Defined.
#[export] Instance AgentAuthorization_eq_dec : EqDecision AgentAuthorization.
Proof. solve_decision. Defined.
#[export] Instance t_eq_dec : EqDecision t.
Proof. solve_decision. Defined.

Definition empty : t := mkStore ∅ ∅ ∅.

Definition no_role : Role := mkRole ∅ ∅.
Definition no_group : AgentGroup := mkAgentGroup ∅ ∅ ∅ ∅.
Definition no_authorization : AgentAuthorization := mkAgentAuthorization ∅ ∅ ∅ ∅ None.

(** An argument left at [None] contributes nothing to a union. *)
Definition given {A} `{Countable A} (o : option (gset A)) : gset A := default ∅ o.

(** Modelled from the spec: [create_or_merge_role] of the Authorization
    Manager (section 4.1), which is not part of this repository's
    sources.  It creates the role if absent, otherwise unions the given
    capability sets into it, and returns success once applied. *)
Definition merge_role (name : string) (rpc : option RPCCapabilities)
    (pubsub : option PubsubCapabilities) (st : t) : t :=
  let old := default no_role (roles st !! name) in
  mkStore (<[name := mkRole (role_rpc_capabilities old ∪ given rpc)
                            (role_pubsub_capabilities old ∪ given pubsub)]> (roles st))
          (agent_groups st) (agents st).

Definition create_or_merge_role (name : string) (rpc : option RPCCapabilities)
    (pubsub : option PubsubCapabilities) : Py t bool :=
  λ st, (Return true, merge_role name rpc pubsub st).

(** Modelled from the spec: [create_or_merge_agent_group] (section
    4.1): unions membership and the attached role assignments and direct
    capabilities. *)
Definition merge_agent_group (name : string) (members : gset Identity)
    (ars : option AgentRoles) (rpc : option RPCCapabilities)
    (pubsub : option PubsubCapabilities) (st : t) : t :=
  let old := default no_group (agent_groups st !! name) in
  mkStore (roles st)
          (<[name := mkAgentGroup (identities old ∪ members)
                                  (group_agent_roles old ∪ given ars)
                                  (group_rpc_capabilities old ∪ given rpc)
                                  (group_pubsub_capabilities old ∪ given pubsub)]>
             (agent_groups st))
          (agents st).

Definition create_or_merge_agent_group (name : string) (members : gset Identity)
    (ars : option AgentRoles) (rpc : option RPCCapabilities)
    (pubsub : option PubsubCapabilities) : Py t bool :=
  λ st, (Return true, merge_agent_group name members ars rpc pubsub st).

(** Modelled from the spec: [create_or_merge_agent_authz] (section 4.1):
    unions protected_rpcs, role assignments and direct capabilities, and
    overwrites the comments. *)
Definition merge_agent_authz (identity : Identity)
    (protected : option (gset string)) (ars : option AgentRoles)
    (rpc : option RPCCapabilities) (pubsub : option PubsubCapabilities)
    (comment : option string) (st : t) : t :=
  let old := default no_authorization (agents st !! identity) in
  mkStore (roles st) (agent_groups st)
          (<[identity := mkAgentAuthorization (protected_rpcs old ∪ given protected)
                                              (agent_roles old ∪ given ars)
                                              (agent_rpc_capabilities old ∪ given rpc)
                                              (agent_pubsub_capabilities old ∪ given pubsub)
                                              comment]> (agents st)).

Definition create_or_merge_agent_authz (identity : Identity)
    (protected : option (gset string)) (ars : option AgentRoles)
    (rpc : option RPCCapabilities) (pubsub : option PubsubCapabilities)
    (comment : option string) : Py t bool :=
  λ st, (Return true, merge_agent_authz identity protected ars rpc pubsub comment st).

(** A role's capability with the assignment-local restrictions merged in. *)
Definition restrict (ar : AgentRole) (c : RPCCapability) : RPCCapability :=
  mkRPCCapability (resource c) (role_param_restrictions ar ∪ param_restrictions c).

Definition role_capabilities (st : t) (ar : AgentRole) : Capabilities :=
  match roles st !! role_name ar with
  | Some r => mkCapabilities (set_map (restrict ar) (role_rpc_capabilities r))
                             (role_pubsub_capabilities r)
  | None => ∅
  end.

Definition assigned_capabilities (st : t) (ars : gset AgentRole) : Capabilities :=
  ⋃ (role_capabilities st <$> elements ars).

Definition agent_capabilities (st : t) (identity : Identity) : Capabilities :=
  match agents st !! identity with
  | Some a => mkCapabilities (agent_rpc_capabilities a) (agent_pubsub_capabilities a)
              ∪ assigned_capabilities st (agent_roles a)
  | None => ∅
  end.

Definition group_capabilities (st : t) (identity : Identity) : Capabilities :=
  ⋃ ((λ g : AgentGroup,
        if bool_decide (identity ∈ identities g) then
          mkCapabilities (group_rpc_capabilities g) (group_pubsub_capabilities g)
          ∪ assigned_capabilities st (group_agent_roles g)
        else ∅) <$> (map_to_list (agent_groups st)).*2).

(** Modelled from the spec: the effective capabilities of section 3,
    direct capabilities, those of each assigned role with the
    assignment's restrictions merged in, and those inherited through
    group membership; recomputed on every call. *)
Definition effective_capabilities (st : t) (identity : Identity) : Capabilities :=
  agent_capabilities st identity ∪ group_capabilities st identity.

Definition get_agent_capabilities (identity : Identity) : Py t Capabilities :=
  gets (λ st, effective_capabilities st identity).

(** Modelled from the spec: [get_protected_rpcs] (section 4.1): the empty
    set if the identity has no record. *)
Definition protected_of (st : t) (identity : Identity) : gset string :=
  match agents st !! identity with
  | Some a => protected_rpcs a
  | None => ∅
  end.

Definition get_protected_rpcs (identity : Identity) : Py t (gset string) :=
  gets (λ st, protected_of st identity).

(** Modelled from the spec: [remove_agent_authorization] (sections 4.1
    and 7): deletes the record; an unknown identity is a fatal NotFound. *)
Definition remove_agent_authorization (identity : Identity) : Py t bool :=
  λ st, match agents st !! identity with
        | Some _ => (Return true,
                     mkStore (roles st) (agent_groups st) (delete identity (agents st)))
        | None => (Raise (NotFound identity), st)
        end.

(** Modelled from the spec: how a request names its target.  The
    method name handed to [check_rpc_authorization] is a
    [vipid_dot_rpc_method] (volttron.types.auth.authz_types, not among
    this repository's sources): it names the identity whose method is
    called, the target, and the method as that identity's protected set
    lists it (the service protects ["set_config"] and grants
    [CONFIGURATION_STORE.set_config]).  Where the name is cut is left
    open. *)
Class MethodNames := {
  target_of : string → Identity;
  method_of : string → string }.

Section matching.
(** Python's [re.fullmatch] on a compiled pattern, which the Pattern
    Matcher relies on for the Regex form. *)
Variable re_fullmatch : string → string → bool.
Context {names : MethodNames}.

(** Modelled from the spec: the Pattern Matcher of section 4.2.  A
    pattern delimited by the marker is a Regex whose enclosed text is
    matched in full against the candidate; any other pattern is a
    Literal, matched by equality.  The classifier is [isregex]. *)
Definition pattern_matches (pattern candidate : string) : bool :=
  match isregex pattern with
  | Return true =>
      re_fullmatch (String.substring 1 (String.length pattern - 2) pattern) candidate
  | _ => bool_decide (pattern = candidate)
  end.

Definition permits (method_name : string) (method_args : gmap string string)
    (c : RPCCapability) : bool :=
  pattern_matches (resource c) method_name
  && bool_decide (param_restrictions c ⊆ method_args).

(** How a request was decided: by the default-open short-circuit, or
    by resolving the capabilities that are recorded here. *)
Inductive Decision :=
| OpenByDefault
| Resolved (capabilities : Capabilities) (answer : bool).

(** Modelled from the spec: [check_rpc_authorization] (section 4.1).
    The protected set consulted is the target's, the identity whose
    method is called, not that of the calling [identity].  A method
    outside it is open to every caller; otherwise some effective
    capability of the calling identity must match the method name with
    every restricted parameter present in the arguments with an equal
    value. *)
Definition decide_rpc (st : t) (identity : Identity) (method_name : string)
    (method_args : gmap string string) : Decision :=
  if bool_decide (method_of method_name ∈ protected_of st (target_of method_name)) then
    let capabilities := effective_capabilities st identity in
    Resolved capabilities
      (existsb (permits method_name method_args)
               (elements (rpc_capabilities capabilities)))
  else OpenByDefault.

Definition check_rpc_authorization (identity : Identity) (method_name : string)
    (method_args : gmap string string) : Py t bool :=
  gets (λ st, match decide_rpc st identity method_name method_args with
              | OpenByDefault => true
              | Resolved _ answer => answer
              end).

Definition manager : AuthorizationManager.t t := {|
  AuthorizationManager.create_or_merge_role := create_or_merge_role;
  AuthorizationManager.create_or_merge_agent_group := create_or_merge_agent_group;
  AuthorizationManager.create_or_merge_agent_authz := create_or_merge_agent_authz;
  AuthorizationManager.get_agent_capabilities := get_agent_capabilities;
  AuthorizationManager.get_protected_rpcs := get_protected_rpcs;
  AuthorizationManager.check_rpc_authorization := check_rpc_authorization;
  AuthorizationManager.remove_agent_authorization := remove_agent_authorization |}.
End matching.

End PolicyStore.

Arguments PolicyStore.merge_role : simpl never.
Arguments PolicyStore.merge_agent_group : simpl never.
Arguments PolicyStore.merge_agent_authz : simpl never.

(** ** The credential collaborators *)

Module CredentialsDict.

(** Modelled from the spec: the credential store of section 6, which is
    not part of this repository's sources: [retrieve] fails with
    NotFound ([IdentityNotFound] in the service's words) when the
    identity is absent, [store] records the credentials under their
    identity, [remove] deletes them and is fatal for an unknown name
    (section 7). *)
Definition retrieve_credentials (name : Identity) : Py (gmap Identity Credentials) Credentials :=
  λ st, match st !! name with
        | Some c => (Return c, st)
        | None => (Raise (IdentityNotFound name), st)
        end.

Definition store_credentials (c : Credentials) : Py (gmap Identity Credentials) unit :=
  modify (λ st, <[identity c := c]> st).

Definition remove_credentials (name : Identity) : Py (gmap Identity Credentials) unit :=
  λ st, match st !! name with
        | Some _ => (Return (), delete name st)
        | None => (Raise (IdentityNotFound name), st)
        end.

#[global] Instance store : CredentialsStore.t (gmap Identity Credentials) := {|
  CredentialsStore.retrieve_credentials := retrieve_credentials;
  CredentialsStore.store_credentials := store_credentials;
  CredentialsStore.remove_credentials := remove_credentials |}.

(** Modelled from the spec: the credential creator of section 6.  Its
    state counts the credentials issued so far, and every credential
    gets a secret of its own. *)
Definition create (name : Identity) : Py nat Credentials :=
  λ issued, (Return (mkCredentials name issued), S issued).

#[global] Instance creator : CredentialsCreator.t nat := {|
  CredentialsCreator.create := create |}.

End CredentialsDict.

(** The values the platform gives the reserved identities. *)
Definition platform_identities : KnownIdentities := {|
  AUTH := "platform.auth";
  CONFIGURATION_STORE := "config.store";
  CONTROL := "control";
  CONTROL_CONNECTION := "control.connection";
  PLATFORM := "platform";
  PLATFORM_HEALTH := "platform.health" |}.

(** A regex engine that knows the pattern [.*] only; enough to run the
    service on concrete inputs. *)
Definition dot_star_only (re s : string) : bool := bool_decide (re = ".*").

(** One way of cutting a [vipid_dot_rpc_method]: the method is what
    follows the last dot, the target what precedes it; enough to run the
    service on concrete inputs.  [rsplit_dot] also tells whether a dot
    was met. *)
Fixpoint rsplit_dot (s : string) : string * string * bool :=
  match s with
  | EmptyString => (EmptyString, EmptyString, false)
  | String c s' =>
      let '(target, method, met) := rsplit_dot s' in
      if met then (String c target, method, true)
      else if Ascii.eqb c "."%char then (EmptyString, method, true)
      else (EmptyString, String c method, false)
  end.

#[global] Instance after_last_dot : PolicyStore.MethodNames := {|
  PolicyStore.target_of := λ method_name, (rsplit_dot method_name).1.1;
  PolicyStore.method_of := λ method_name, (rsplit_dot method_name).1.2 |}.

(** ** Concrete collaborators and states, for running the service *)

Definition dot_star_manager : AuthorizationManager.t PolicyStore.t :=
  PolicyStore.manager dot_star_only.

Definition answers : RpcCall → Outcome unit := λ _, Return ().
Definition rejects : RpcCall → Outcome unit := λ _, Raise RemoteError.
Definition unreachable : RpcCall → Outcome unit := λ _, Raise Unreachable.

(** The record of an agent that already protects the method ["m"]. *)
Definition agent1_store : PolicyStore.t :=
  PolicyStore.mkStore ∅ ∅
    {[ "agent1" := PolicyStore.mkAgentAuthorization {[ "m" ]} ∅ ∅ ∅ None ]}.

(** A running service that holds the credentials of ["agent1"], with
    ["agent1"] connected. *)
Definition agent1_service : VolttronAuthService :=
  mkService (CS := gmap string Credentials) (CC := nat)
            {[ "agent1" := mkCredentials "agent1" 0 ]} 1 (Some agent1_store)
            [ "agent1" ] [] [].

(** The same service with no peer connected. *)
Definition agent1_offline : VolttronAuthService :=
  mkService (CS := gmap string Credentials) (CC := nat)
            {[ "agent1" := mkCredentials "agent1" 0 ]} 1 (Some agent1_store)
            [] [] [].

(** A service that holds a record for ["agent1"] but no credentials. *)
Definition agent1_no_credentials : VolttronAuthService :=
  mkService (CS := gmap string Credentials) (CC := nat)
            ∅ 0 (Some agent1_store) [] [] [].

(** The same service, handed no authorization manager. *)
Definition agent1_no_manager : VolttronAuthService :=
  mkService (CS := gmap string Credentials) (CC := nat) (AM := PolicyStore.t)
            {[ "agent1" := mkCredentials "agent1" 0 ]} 1 None [ "agent1" ] [] [].

(** A service that holds credentials for ["agent2"], which has no record. *)
Definition agent2_unrecorded : VolttronAuthService :=
  mkService (CS := gmap string Credentials) (CC := nat)
            {[ "agent2" := mkCredentials "agent2" 0 ]} 1 (Some agent1_store) [] [] [].

(** A peer that does not answer within the timeout. *)
Definition times_out : RpcCall → Outcome unit := λ _, Raise Timeout.

(** Collaborators that are out of order: a credentials store whose file
    cannot be read, a creator that cannot issue, and a manager that refuses
    every call. *)
Definition broken_store : CredentialsStore.t unit := {|
  CredentialsStore.retrieve_credentials := λ _, throw (OtherError "OSError");
  CredentialsStore.store_credentials := λ _, throw (OtherError "OSError");
  CredentialsStore.remove_credentials := λ _, throw (OtherError "OSError") |}.

Definition broken_creator : CredentialsCreator.t unit := {|
  CredentialsCreator.create := λ _, throw (OtherError "ValueError") |}.

Definition refusing_manager : AuthorizationManager.t unit := {|
  AuthorizationManager.create_or_merge_role := λ _ _ _, throw (OtherError "ValueError");
  AuthorizationManager.create_or_merge_agent_group :=
    λ _ _ _ _ _, throw (OtherError "ValueError");
  AuthorizationManager.create_or_merge_agent_authz :=
    λ _ _ _ _ _ _, throw (OtherError "ValueError");
  AuthorizationManager.get_agent_capabilities := λ _, throw (OtherError "ValueError");
  AuthorizationManager.get_protected_rpcs := λ _, throw (OtherError "ValueError");
  AuthorizationManager.check_rpc_authorization := λ _ _ _, throw (OtherError "ValueError");
  AuthorizationManager.remove_agent_authorization := λ _, throw (OtherError "ValueError") |}.

Definition broken_store_service : VolttronAuthService :=
  mkService (CS := unit) (CC := nat) () 0 (Some agent1_store) [] [] [].

Definition broken_creator_service : VolttronAuthService :=
  mkService (CS := gmap string Credentials) (CC := unit) ∅ () (Some agent1_store) [] [] [].

Definition refused_service : VolttronAuthService :=
  mkService (CS := gmap string Credentials) (CC := nat) (AM := unit)
            {[ "agent1" := mkCredentials "agent1" 0 ]} 1 (Some ()) [ "agent1" ] [] [].

(** ** Closed forms of what the service does on these collaborators *)

(** [self] with its manager, or its credential collaborators, replaced. *)
Definition with_manager {CS CC AM} (f : AM → AM)
    (self : VolttronAuthService (CS := CS) (CC := CC) (AM := AM)) :
    VolttronAuthService (CS := CS) (CC := CC) (AM := AM) :=
  mkService (_credentials_store self) (_credentials_creator self)
            (f <$> _authz_manager self)
            (peers_list self) (rpc_calls self) (debug_log self).

Definition with_credentials {CS CC AM} (f : CS * CC → CS * CC)
    (self : VolttronAuthService (CS := CS) (CC := CC) (AM := AM)) :
    VolttronAuthService (CS := CS) (CC := CC) (AM := AM) :=
  mkService (f (_credentials_store self, _credentials_creator self)).1
            (f (_credentials_store self, _credentials_creator self)).2
            (_authz_manager self)
            (peers_list self) (rpc_calls self) (debug_log self).

Section closed_forms.
Context {known : KnownIdentities}.

(** One round of the credentials loop of [__init__], and the whole loop:
    the store and the number of credentials issued. *)
Definition ensure_credentials (k : Identity) (s : gmap Identity Credentials * nat) :
    gmap Identity Credentials * nat :=
  match s.1 !! k with
  | Some _ => s
  | None => (<[k := mkCredentials k s.2]> s.1, S s.2)
  end.

Definition ensure_all (l : list Identity) (s : gmap Identity Credentials * nat) :
    gmap Identity Credentials * nat :=
  foldl (λ s k, ensure_credentials k s) s l.

(** What [__init__] adds to the protected set of [k]. *)
Definition baseline (k : Identity) : gset string :=
  (if bool_decide (k = CONFIGURATION_STORE) then
     {[ "set_config"; "delete_config"; "delete_store"; "initialize_configs";
        "config_update"; "initial_config" ]}
   else ∅)
  ∪ (if bool_decide (k = AUTH) then
       {[ "create_agent"; "remove_agent"; "create_or_merge_role";
          "create_or_merge_agent_group"; "create_or_merge_agent_authz";
          "create_protected_topics"; "remove_agents_from_group";
          "add_agents_to_group"; "remove_protected_topics";
          "remove_agent_authorization"; "remove_agent_group"; "remove_role" ]}
     else ∅).

(** One round of the authorization loop of [__init__] on the store, and
    the whole loop. *)
Definition seed (k : Identity) (st : PolicyStore.t) : PolicyStore.t :=
  PolicyStore.merge_agent_authz k (Some (baseline k)) None None None (Some init_comments) st.

Definition seed_all (l : list Identity) (st : PolicyStore.t) : PolicyStore.t :=
  foldl (λ st k, seed k st) st l.

(** What [create_agent] does to the store of an identity without
    capabilities. *)
Definition provision (name : Identity) (st : PolicyStore.t) : PolicyStore.t :=
  PolicyStore.merge_agent_authz name
    (Some {[ "config.update"; "config.initial_update";
             "rpc.add_protected_rpcs"; "rpc.remove_protected_rpcs" ]})
    (Some {[ mkAgentRole "default_rpc_capabilities" {[ "identity" := name ]} ]})
    None None (Some "default authorization for new user") st.

(** The three default roles, and the whole of the authorization part of
    [__init__]. *)
Definition seed_roles (st : PolicyStore.t) : PolicyStore.t :=
  PolicyStore.merge_role "admin"
    (Some {[ mkRPCCapability "/.*/" ∅ ]})
    (Some {[ mkPubsubCapability "/.*/" "pubsub" ]})
    (PolicyStore.merge_role "sync_agent_config"
       (Some {[ mkRPCCapability "config.store.config_update" ∅;
                mkRPCCapability "config.store.initial_update" ∅ ]})
       None
       (PolicyStore.merge_role "default_rpc_capabilities"
          (Some {[ mkRPCCapability (CONFIGURATION_STORE +:+ ".initialize_configs") ∅;
                   mkRPCCapability (CONFIGURATION_STORE +:+ ".set_config") ∅;
                   mkRPCCapability (CONFIGURATION_STORE +:+ ".delete_store") ∅;
                   mkRPCCapability (CONFIGURATION_STORE +:+ ".delete_config") ∅ ]})
          None st)).

Definition bootstrap (st : PolicyStore.t) : PolicyStore.t :=
  PolicyStore.merge_agent_group "admin_users" (list_to_set volttron_services)
    (Some {[ mkAgentRole "admin" ∅ ]}) None None
    (seed_all volttron_services (seed_roles st)).

End closed_forms.

Arguments ensure_all : simpl never.
Arguments seed : simpl never.
Arguments seed_all : simpl never.
Arguments seed_roles : simpl never.
Arguments provision : simpl never.
Arguments bootstrap : simpl never.

(** A service about to start on empty stores, and one whose policy store
    holds the three default roles. *)
Definition fresh_service : VolttronAuthService :=
  mkService (CS := gmap string Credentials) (CC := nat)
            ∅ 0 (Some PolicyStore.empty) [] [] [].

Definition seeded_store : PolicyStore.t :=
  seed_roles (known := platform_identities) PolicyStore.empty.

Definition seeded_service : VolttronAuthService :=
  mkService (CS := gmap string Credentials) (CC := nat)
            ∅ 0 (Some seeded_store) [] [] [].

(** ** Facts on indexing *)

Definition chars (obj : string) : list ascii := String.list_ascii_of_string obj.

Lemma chars_length obj : length (chars obj) = String.length obj.
Proof. induction obj as [|c obj IH]; simpl; [done | by rewrite IH]. Qed.

Lemma get_chars obj (n : nat) : String.get n obj = chars obj !! n.
Proof.
  revert n. induction obj as [|c obj IH]; intros [|n]; simpl; done.
Qed.

Lemma getitem_first obj :
  (0 < len obj)%Z → getitem obj 0 = from_option Return (Raise IndexError) (head (chars obj)).
Proof.
  intros Hlen. unfold getitem. simpl.
  destruct (Z.ltb_spec 0 (len obj)) as [_|?]; [simpl | lia].
  rewrite get_chars. change (Z.to_nat 0) with 0%nat.
  rewrite <- head_lookup. by destruct (head (chars obj)).
Qed.

Lemma getitem_last obj :
  (0 < len obj)%Z → getitem obj (-1) = from_option Return (Raise IndexError) (last (chars obj)).
Proof.
  intros Hlen. unfold getitem. simpl.
  destruct (Z.leb_spec 0 (-1 + len obj)) as [_|?]; [simpl | lia].
  destruct (Z.ltb_spec (-1 + len obj) (len obj)) as [_|?]; [| lia].
  rewrite get_chars, last_lookup, chars_length.
  replace (Z.to_nat (-1 + len obj)) with (pred (String.length obj)) by (unfold len in *; lia).
  by destruct (chars obj !! pred (String.length obj)).
Qed.

(** ** C10 *)

(** C10: [isregex] never raises, and it answers [True] exactly for the
    strings of length greater than 1 whose first and last characters are
    both ["/"]; so ["/"] alone and the empty string are not regex patterns. *)
Theorem isregex_spec :
  (∀ s : string,
      isregex s =
      Return (bool_decide ((1 < String.length s)%nat
                           ∧ head (chars s) = Some "/"%char
                           ∧ last (chars s) = Some "/"%char)))
  ∧ isregex "/" = Return false
  ∧ isregex "" = Return false.
Proof.
  split; [| by split].
  intros s. unfold isregex.
  destruct (Z.ltb_spec 1 (len s)) as [Hlen|Hlen].
  - rewrite getitem_first, getitem_last by lia.
    assert (chars s ≠ []) as Hne.
    { intros Hnil. pose proof (chars_length s) as Hl. rewrite Hnil in Hl.
      unfold len in Hlen. simpl in Hl. lia. }
    destruct (head (chars s)) as [a|] eqn:Ha; [| by apply head_None in Ha].
    destruct (last (chars s)) as [b|] eqn:Hb; [| by apply last_None in Hb].
    simpl.
    destruct (Ascii.eqb_spec a b) as [->|Hab]; f_equal; symmetry.
    + destruct (Ascii.eqb_spec b "/"%char) as [->|Hb'].
      * apply bool_decide_eq_true. unfold len in Hlen. split; [lia | done].
      * apply bool_decide_eq_false. intros (_ & _ & ?). congruence.
    + apply bool_decide_eq_false. intros (_ & ? & ?). congruence.
  - f_equal. symmetry. apply bool_decide_eq_false. unfold len in Hlen. lia.
Qed.

(** ** The service against any collaborators *)

Section service_facts.
Context {CS CC AM : Type}.
Context {store_ops : CredentialsStore.t CS} {creator_ops : CredentialsCreator.t CC}.
Context {manager_ops : AuthorizationManager.t AM}.
Variable rpc_get : RpcCall → Outcome unit.

Implicit Types (self : VolttronAuthService (CS := CS) (CC := CC) (AM := AM)).

Ltac run_service :=
  unfold create_or_merge_agent_authz, remove_agent, mbind, mret, Py_bind, Py_ret,
    on_authz_manager, on_credentials_store, try_except, vip_rpc_call, _log_debug,
    throw, gets, modify;
  simpl.

(** C2, as the code has it: the push of the [protected_rpcs] argument
    (method [rpc.add_protected_rpcs], timeout 5 seconds) is issued exactly
    when the merge returned a true result, the [protected_rpcs] argument is
    a non-empty set, and the identity is among the connected peers; no other
    call is issued. *)
Theorem create_or_merge_agent_authz_push_gate
    self identity protected_rpcs roles rpc pubsub comments :
  let gate :=
    match _authz_manager self with
    | Some am =>
        match (AuthorizationManager.create_or_merge_agent_authz
                 identity protected_rpcs roles rpc pubsub comments am).1 with
        | Return result =>
            result && truthy_set protected_rpcs
            && bool_decide (identity ∈ peers_list self)
        | Raise _ => false
        end
    | None => false
    end in
  rpc_calls (create_or_merge_agent_authz rpc_get identity protected_rpcs
               roles rpc pubsub comments self).2
  = (rpc_calls self
     ++ (if gate then [mkRpcCall identity "rpc.add_protected_rpcs" protected_rpcs 5]
         else []))%list.
Proof.
  run_service.
  destruct (_authz_manager self) as [am|]; simpl; [| by rewrite app_nil_r].
  destruct (AuthorizationManager.create_or_merge_agent_authz _ _ _ _ _ _ am)
    as [[result|e] am']; simpl; [| by rewrite app_nil_r].
  destruct result, (truthy_set protected_rpcs); simpl; try by rewrite app_nil_r.
  destruct (bool_decide (identity ∈ peers_list self)); simpl; [| by rewrite app_nil_r].
  destruct (rpc_get _) as [[]|[]]; simpl; done.
Qed.

(** C3: when the push is issued and the peer answers with [RemoteError],
    the call raises (the [raise] of a tuple in the handler makes that a
    [TypeError]) instead of returning the merge's result, and the merge
    stays applied in the manager. *)
Theorem create_or_merge_agent_authz_remote_error
    self am am' identity protected_rpcs roles rpc pubsub comments :
  _authz_manager self = Some am →
  AuthorizationManager.create_or_merge_agent_authz
    identity protected_rpcs roles rpc pubsub comments am = (Return true, am') →
  truthy_set protected_rpcs = true →
  identity ∈ peers_list self →
  rpc_get (mkRpcCall identity "rpc.add_protected_rpcs" protected_rpcs 5) = Raise RemoteError →
  let run := create_or_merge_agent_authz rpc_get identity protected_rpcs
               roles rpc pubsub comments self in
  run.1 = Raise TypeError ∧ _authz_manager run.2 = Some am'.
Proof.
  intros Ham Hmerge Htruthy Hpeer Hremote. run_service.
  rewrite Ham, Hmerge. simpl. rewrite Htruthy. simpl.
  rewrite bool_decide_eq_true_2 by done. simpl.
  rewrite Hremote. done.
Qed.

(** C4: when the identity is not connected, or the push fails with
    [Unreachable], the call returns the result of the merge and raises
    nothing; the merge is applied. *)
Theorem create_or_merge_agent_authz_unreachable
    self am am' result identity protected_rpcs roles rpc pubsub comments :
  _authz_manager self = Some am →
  AuthorizationManager.create_or_merge_agent_authz
    identity protected_rpcs roles rpc pubsub comments am = (Return result, am') →
  identity ∉ peers_list self
  ∨ rpc_get (mkRpcCall identity "rpc.add_protected_rpcs" protected_rpcs 5)
    = Raise Unreachable →
  let run := create_or_merge_agent_authz rpc_get identity protected_rpcs
               roles rpc pubsub comments self in
  run.1 = Return result ∧ _authz_manager run.2 = Some am'.
Proof.
  intros Ham Hmerge Hcase. run_service.
  rewrite Ham, Hmerge. simpl.
  destruct (result && truthy_set protected_rpcs); simpl; [| done].
  destruct (bool_decide_reflect (identity ∈ peers_list self)) as [Hin|Hout]; simpl; [| done].
  destruct Hcase as [Hout|Hremote]; [done |].
  rewrite Hremote. done.
Qed.

(** C5: [remove_agent] removes the credentials first.  If that raises,
    the same exception leaves [remove_agent] and the manager is as it was;
    if it returns, the authorization record is removed next, on the store
    left by the removal.  So the manager changes only after the credentials
    were removed. *)
Theorem remove_agent_credentials_first self identity :
  (∀ e cs',
      CredentialsStore.remove_credentials identity (_credentials_store self) = (Raise e, cs') →
      (remove_agent identity self).1 = Raise e
      ∧ _authz_manager (remove_agent identity self).2 = _authz_manager self
      ∧ _credentials_store (remove_agent identity self).2 = cs')
  ∧ (∀ cs' am o am',
      CredentialsStore.remove_credentials identity (_credentials_store self) = (Return (), cs') →
      _authz_manager self = Some am →
      AuthorizationManager.remove_agent_authorization identity am = (o, am') →
      (remove_agent identity self).1 = (o ≫= λ _, Return true)
      ∧ _authz_manager (remove_agent identity self).2 = Some am'
      ∧ _credentials_store (remove_agent identity self).2 = cs')
  ∧ (_authz_manager (remove_agent identity self).2 ≠ _authz_manager self →
     ∃ cs', CredentialsStore.remove_credentials identity (_credentials_store self)
            = (Return (), cs')).
Proof.
  split; [| split].
  - intros e cs' Hrm. run_service. rewrite Hrm. done.
  - intros cs' am o am' Hrm Ham Hauthz. run_service.
    rewrite Hrm. simpl. rewrite Ham, Hauthz. by destruct o.
  - run_service.
    destruct (CredentialsStore.remove_credentials identity (_credentials_store self))
      as [[[]|e] cs'] eqn:Hrm; simpl; [by eauto | done].
Qed.

End service_facts.

(** ** Runs of the service on the concrete collaborators *)

(** C2, as the claim states it, fails: ["agent1"] is connected and already
    protects ["m"]; merging [{"m"}] again leaves its protected set as it
    was, and the push is issued all the same. *)
Lemma create_or_merge_agent_authz_pushes_unchanged :
  let run := create_or_merge_agent_authz (manager_ops := dot_star_manager) answers
               "agent1" (Some {[ "m" ]}) None None None None agent1_service in
  ({[ "m" ]} : gset string) ⊆ PolicyStore.protected_of agent1_store "agent1"
  ∧ "agent1" ∈ peers_list agent1_service
  ∧ (∃ st', _authz_manager run.2 = Some st'
            ∧ PolicyStore.protected_of st' "agent1"
              = PolicyStore.protected_of agent1_store "agent1")
  ∧ run.1 = Return true
  ∧ rpc_calls run.2 = [mkRpcCall "agent1" "rpc.add_protected_rpcs" (Some {[ "m" ]}) 5].
Proof.
  split; [compute_done |]. split; [compute_done |]. split; [| split; compute_done].
  eexists. split; [reflexivity | compute_done].
Qed.

Lemma create_or_merge_agent_authz_remote_error_witness :
  let run := create_or_merge_agent_authz (manager_ops := dot_star_manager) rejects
               "agent1" (Some {[ "n" ]}) None None None None agent1_service in
  run.1 = Raise TypeError
  ∧ _authz_manager run.2
    = Some (PolicyStore.create_or_merge_agent_authz
              "agent1" (Some {[ "n" ]}) None None None None agent1_store).2.
Proof.
  apply (create_or_merge_agent_authz_remote_error (manager_ops := dot_star_manager)
           rejects agent1_service agent1_store).
  - reflexivity.
  - reflexivity.
  - vm_compute. reflexivity.
  - apply list_elem_of_here.
  - reflexivity.
Defined.

Lemma create_or_merge_agent_authz_unreachable_witness :
  let run := create_or_merge_agent_authz (manager_ops := dot_star_manager) unreachable
               "agent1" (Some {[ "n" ]}) None None None None agent1_service in
  run.1 = Return true
  ∧ _authz_manager run.2
    = Some (PolicyStore.create_or_merge_agent_authz
              "agent1" (Some {[ "n" ]}) None None None None agent1_store).2.
Proof.
  apply (create_or_merge_agent_authz_unreachable (manager_ops := dot_star_manager)
           unreachable agent1_service agent1_store).
  - reflexivity.
  - reflexivity.
  - right. reflexivity.
Defined.

Lemma remove_agent_credentials_first_witness :
  ((remove_agent (manager_ops := dot_star_manager) "agent1" agent1_no_credentials).1
   = Raise (IdentityNotFound "agent1")
   ∧ _authz_manager
       (remove_agent (manager_ops := dot_star_manager) "agent1" agent1_no_credentials).2
     = Some agent1_store)
  ∧ ((remove_agent (manager_ops := dot_star_manager) "agent1" agent1_service).1
     = Return true
     ∧ _authz_manager
         (remove_agent (manager_ops := dot_star_manager) "agent1" agent1_service).2
       = Some (PolicyStore.mkStore ∅ ∅ (delete "agent1" (PolicyStore.agents agent1_store)))).
Proof.
  split.
  - destruct (remove_agent_credentials_first (manager_ops := dot_star_manager)
                agent1_no_credentials "agent1") as (Hfails & _ & _).
    destruct (Hfails (IdentityNotFound "agent1") ∅) as (Hraise & Hmanager & _);
      [reflexivity |].
    split; assumption.
  - destruct (remove_agent_credentials_first (manager_ops := dot_star_manager)
                agent1_service "agent1") as (_ & Hreturns & _).
    destruct (Hreturns (delete "agent1" (_credentials_store agent1_service)) agent1_store
                (Return true)
                (PolicyStore.mkStore ∅ ∅ (delete "agent1" (PolicyStore.agents agent1_store))))
      as (Hret & Hmanager & _); [reflexivity | reflexivity | reflexivity |].
    split; assumption.
Defined.

(** ** Facts on the loops *)

Lemma for_each_rounds {S A} (I : S → Prop) (f : A → S → S) (body : A → Py S unit) l s :
  (∀ x s, I s → body x s = (Return (), f x s) ∧ I (f x s)) →
  I s →
  for_each l body s = (Return (), foldl (λ s x, f x s) s l)
  ∧ I (foldl (λ s x, f x s) s l).
Proof.
  intros Hround. revert s.
  induction l as [|x l IH]; intros s Hs; simpl; [done |].
  unfold mbind, Py_bind. destruct (Hround x s Hs) as [-> Hnext]. by apply IH.
Qed.

Lemma bind_run {S A B} (m : Py S A) (f : A → Py S B) s a s' :
  m s = (Return a, s') → (m ≫= f) s = f a s'.
Proof. unfold mbind, Py_bind. by intros ->. Qed.

Lemma for_each_cons {S A} (body : A → Py S unit) x l s :
  for_each (x :: l) body s
  = match body x s with
    | (Return _, s') => for_each l body s'
    | (Raise e, s') => (Raise e, s')
    end.
Proof. reflexivity. Qed.

(** ** Facts on the Policy Store *)

Section store_facts.
Import PolicyStore.
Implicit Types (st : PolicyStore.t) (name : string).

Lemma merge_agent_authz_lookup name p a r q c st :
  agents (merge_agent_authz name p a r q c st) !! name
  = Some (let old := default no_authorization (agents st !! name) in
          mkAgentAuthorization (protected_rpcs old ∪ given p) (agent_roles old ∪ given a)
            (agent_rpc_capabilities old ∪ given r)
            (agent_pubsub_capabilities old ∪ given q) c).
Proof. unfold merge_agent_authz. simpl. by rewrite lookup_insert_eq. Qed.

Lemma merge_agent_authz_lookup_ne name other p a r q c st :
  name ≠ other →
  agents (merge_agent_authz name p a r q c st) !! other = agents st !! other.
Proof. intros Hne. unfold merge_agent_authz. simpl. by rewrite lookup_insert_ne. Qed.

Lemma protected_of_merge_agent_authz name x p a r q c st :
  protected_of (merge_agent_authz name p a r q c st) x
  = protected_of st x ∪ (if bool_decide (x = name) then given p else ∅).
Proof.
  unfold protected_of. case_bool_decide as Hx.
  - subst x. rewrite merge_agent_authz_lookup. simpl.
    by destruct (agents st !! name).
  - rewrite merge_agent_authz_lookup_ne by done.
    destruct (agents st !! x); by rewrite (right_id_L ∅ (∪)).
Qed.

Lemma protected_of_merge_role name rpc pubsub st x :
  protected_of (merge_role name rpc pubsub st) x = protected_of st x.
Proof. reflexivity. Qed.

Lemma protected_of_merge_agent_group name members a r q st x :
  protected_of (merge_agent_group name members a r q st) x = protected_of st x.
Proof. reflexivity. Qed.

Lemma roles_merge_agent_group name members a r q st :
  roles (merge_agent_group name members a r q st) = roles st.
Proof. reflexivity. Qed.

(** Merging the same arguments a second time changes nothing. *)
Lemma merge_agent_authz_idemp name p a r q c st :
  merge_agent_authz name p a r q c (merge_agent_authz name p a r q c st)
  = merge_agent_authz name p a r q c st.
Proof.
  unfold merge_agent_authz at 1. rewrite merge_agent_authz_lookup.
  unfold merge_agent_authz. simpl. rewrite insert_insert_eq.
  do 2 f_equal. f_equal; by rewrite <- (assoc_L (∪)), (idemp_L (∪)).
Qed.

(** Two merges into one record amount to one merge of the unions. *)
Lemma merge_agent_authz_twice name p1 a1 r1 q1 c1 p2 a2 r2 q2 c2 st :
  merge_agent_authz name p2 a2 r2 q2 c2 (merge_agent_authz name p1 a1 r1 q1 c1 st)
  = merge_agent_authz name (Some (given p1 ∪ given p2)) (Some (given a1 ∪ given a2))
      (Some (given r1 ∪ given r2)) (Some (given q1 ∪ given q2)) c2 st.
Proof.
  unfold merge_agent_authz at 1. rewrite merge_agent_authz_lookup.
  unfold merge_agent_authz. simpl. rewrite insert_insert_eq.
  do 2 f_equal. f_equal; by rewrite (assoc_L (∪)).
Qed.

Lemma merge_agent_authz_ext name p a r q p' a' r' q' c st :
  given p = given p' → given a = given a' → given r = given r' → given q = given q' →
  merge_agent_authz name p a r q c st = merge_agent_authz name p' a' r' q' c st.
Proof. intros Hp Ha Hr Hq. unfold merge_agent_authz. by rewrite Hp, Ha, Hr, Hq. Qed.

Lemma rpc_capabilities_union_list (l : list Capabilities) c :
  c ∈ rpc_capabilities (⋃ l) ↔ ∃ x, x ∈ l ∧ c ∈ rpc_capabilities x.
Proof.
  induction l as [|y l IH]; simpl.
  - split; [by intros ?%not_elem_of_empty | by intros (x & ?%elem_of_nil & _)].
  - rewrite elem_of_union, IH. split.
    + intros [Hy|(x & Hx & Hc)].
      * exists y. split; [apply list_elem_of_here | done].
      * exists x. split; [by apply list_elem_of_further | done].
    + intros (x & [->|Hx]%elem_of_cons & Hc); [by left | right; by exists x].
Qed.

Lemma truthy_capabilities_rpc (caps : Capabilities) c :
  c ∈ rpc_capabilities caps → truthy_capabilities caps = true.
Proof.
  intros Hc. unfold truthy_capabilities.
  rewrite bool_decide_eq_false_2; [done |].
  intros [Hrpc _]. rewrite Hrpc in Hc. by apply not_elem_of_empty in Hc.
Qed.

(** An assigned role that grants something makes the capabilities non-empty. *)
Lemma assigned_role_truthy st name a ar r c :
  agents st !! name = Some a →
  ar ∈ agent_roles a →
  roles st !! role_name ar = Some r →
  c ∈ role_rpc_capabilities r →
  truthy_capabilities (effective_capabilities st name) = true.
Proof.
  intros Ha Har Hr Hc.
  apply (truthy_capabilities_rpc _ (restrict ar c)).
  unfold effective_capabilities, agent_capabilities. rewrite Ha. simpl.
  apply elem_of_union. left. apply elem_of_union. right.
  unfold assigned_capabilities. apply rpc_capabilities_union_list.
  exists (role_capabilities st ar). split.
  - apply list_elem_of_fmap. exists ar. split; [done | by apply elem_of_elements].
  - unfold role_capabilities. rewrite Hr. simpl. by apply elem_of_map_2.
Qed.

End store_facts.

(** ** Facts on the closed forms *)

Section closed_form_facts.
Context {known : KnownIdentities}.
Implicit Types (st : PolicyStore.t) (s : gmap string Credentials * nat).

Lemma ensure_credentials_keeps k x c s :
  s.1 !! x = Some c → (ensure_credentials k s).1 !! x = Some c.
Proof.
  intros Hx. unfold ensure_credentials.
  destruct (s.1 !! k) eqn:Hk; [done |]. simpl.
  rewrite lookup_insert_ne; [done | congruence].
Qed.

Lemma ensure_all_keeps l x c s :
  s.1 !! x = Some c → (ensure_all l s).1 !! x = Some c.
Proof.
  revert s. induction l as [|k l IH]; intros s Hx; simpl; [done |].
  apply IH. by apply ensure_credentials_keeps.
Qed.

Lemma ensure_all_covers l x s :
  x ∈ l → is_Some ((ensure_all l s).1 !! x).
Proof.
  revert s. induction l as [|k l IH]; intros s Hx; [by apply elem_of_nil in Hx |].
  apply elem_of_cons in Hx as [->|Hx]; [| by apply IH].
  change (ensure_all (k :: l) s) with (ensure_all l (ensure_credentials k s)).
  destruct (s.1 !! k) as [c|] eqn:Hk.
  - exists c. by apply ensure_all_keeps, ensure_credentials_keeps.
  - eexists. apply ensure_all_keeps. unfold ensure_credentials. rewrite Hk. simpl.
    apply lookup_insert_eq.
Qed.

Lemma protected_of_seed k x st :
  PolicyStore.protected_of (seed k st) x
  = PolicyStore.protected_of st x ∪ (if bool_decide (x = k) then baseline k else ∅).
Proof. unfold seed. by rewrite protected_of_merge_agent_authz. Qed.

Lemma protected_of_seed_all l x st :
  PolicyStore.protected_of (seed_all l st) x
  = PolicyStore.protected_of st x ∪ (if bool_decide (x ∈ l) then baseline x else ∅).
Proof.
  revert st. induction l as [|k l IH]; intros st.
  - rewrite bool_decide_eq_false_2 by apply not_elem_of_nil.
    by rewrite (right_id_L ∅ (∪)).
  - change (seed_all (k :: l) st) with (seed_all l (seed k st)).
    rewrite IH, protected_of_seed.
    destruct (bool_decide_reflect (x = k)) as [->|Hne].
    + rewrite (bool_decide_eq_true_2 (k ∈ k :: l)) by apply list_elem_of_here.
      case_bool_decide; [| by rewrite (right_id_L ∅ (∪))].
      by rewrite <- (assoc_L (∪)), (idemp_L (∪)).
    + rewrite (right_id_L ∅ (∪)).
      destruct (bool_decide_reflect (x ∈ l)) as [Hin|Hout].
      * by rewrite bool_decide_eq_true_2 by by apply list_elem_of_further.
      * rewrite bool_decide_eq_false_2; [done |].
        intros [->|?]%elem_of_cons; done.
Qed.

Lemma roles_seed_all l st : PolicyStore.roles (seed_all l st) = PolicyStore.roles st.
Proof.
  revert st. induction l as [|k l IH]; intros st; [done |].
  change (seed_all (k :: l) st) with (seed_all l (seed k st)). by rewrite IH.
Qed.

Lemma agent_groups_seed_all l st :
  PolicyStore.agent_groups (seed_all l st) = PolicyStore.agent_groups st.
Proof.
  revert st. induction l as [|k l IH]; intros st; [done |].
  change (seed_all (k :: l) st) with (seed_all l (seed k st)). by rewrite IH.
Qed.

Lemma protected_of_bootstrap x st :
  PolicyStore.protected_of (bootstrap st) x
  = PolicyStore.protected_of st x
    ∪ (if bool_decide (x ∈ volttron_services) then baseline x else ∅).
Proof.
  unfold bootstrap, seed_roles.
  by rewrite protected_of_merge_agent_group, protected_of_seed_all, !protected_of_merge_role.
Qed.

Lemma roles_bootstrap st : PolicyStore.roles (bootstrap st) = PolicyStore.roles (seed_roles st).
Proof. unfold bootstrap. by rewrite roles_merge_agent_group, roles_seed_all. Qed.

Lemma agent_groups_bootstrap st :
  PolicyStore.agent_groups (bootstrap st) !! "admin_users"
  = Some (let old := default PolicyStore.no_group
                       (PolicyStore.agent_groups st !! "admin_users") in
          PolicyStore.mkAgentGroup
            (PolicyStore.identities old ∪ list_to_set volttron_services)
            (PolicyStore.group_agent_roles old ∪ {[ mkAgentRole "admin" ∅ ]})
            (PolicyStore.group_rpc_capabilities old)
            (PolicyStore.group_pubsub_capabilities old)).
Proof.
  unfold bootstrap, PolicyStore.merge_agent_group. simpl.
  rewrite lookup_insert_eq.
  by rewrite !(right_id_L ∅ (∪)).
Qed.

Lemma ensure_credentials_idemp k s :
  ensure_credentials k (ensure_credentials k s) = ensure_credentials k s.
Proof.
  destruct (s.1 !! k) as [c|] eqn:Hk.
  - unfold ensure_credentials. by rewrite !Hk.
  - unfold ensure_credentials. rewrite Hk. simpl. by rewrite lookup_insert_eq.
Qed.

Lemma provision_idemp name st : provision name (provision name st) = provision name st.
Proof. apply merge_agent_authz_idemp. Qed.

(** After [provision], the default role's capabilities count as the
    identity's, provided the role grants something. *)
Lemma provision_truthy name st r :
  PolicyStore.roles st !! "default_rpc_capabilities" = Some r →
  PolicyStore.role_rpc_capabilities r ≠ ∅ →
  truthy_capabilities (PolicyStore.effective_capabilities (provision name st) name) = true.
Proof.
  intros Hr Hne. apply set_choose_L in Hne as [c Hc].
  eapply (assigned_role_truthy _ _ _
            (mkAgentRole "default_rpc_capabilities" {[ "identity" := name ]}) r c);
    [apply merge_agent_authz_lookup | | exact Hr | exact Hc].
  simpl. apply elem_of_union. right. by apply elem_of_singleton.
Qed.

End closed_form_facts.

(** ** More on the service against any collaborators *)

Section service_more_facts.
Context {CS CC AM : Type}.
Context {store_ops : CredentialsStore.t CS} {creator_ops : CredentialsCreator.t CC}.
Context {manager_ops : AuthorizationManager.t AM}.
Variable rpc_get : RpcCall → Outcome unit.

Implicit Types (self : VolttronAuthService (CS := CS) (CC := CC) (AM := AM)).

Ltac run_all :=
  unfold create_agent, create_or_merge_agent_authz, is_credentials, has_credentials_for,
    mbind, mret, Py_bind, Py_ret,
    on_authz_manager, on_credentials_store, on_credentials_creator, try_except,
    vip_rpc_call, _log_debug, throw, gets, modify;
  simpl.

Ltac split_cases :=
  repeat match goal with
         | |- context [match ?x with _ => _ end] =>
             lazymatch x with
             | context [match _ with _ => _ end] => fail
             | _ => destruct x eqn:?; simpl
             end
         | |- context [if ?b then _ else _] =>
             lazymatch b with
             | context [match _ with _ => _ end] => fail
             | context [if _ then _ else _] => fail
             | _ => destruct b eqn:?; simpl
             end
         end.

(** [create_agent] never recreates credentials that the store returns:
    the creator is not called and nothing is stored. *)
Theorem create_agent_keeps_credentials self name c cs' :
  CredentialsStore.retrieve_credentials name (_credentials_store self) = (Return c, cs') →
  _credentials_creator (create_agent name self).2 = _credentials_creator self
  ∧ _credentials_store (create_agent name self).2 = cs'.
Proof.
  intros Hget. run_all. rewrite Hget. simpl. split_cases; done.
Qed.

(** [create_agent] never pushes anything to the agent and never logs,
    whatever the collaborators do: the calls issued, the log and the peers
    are as before. *)
Theorem create_agent_no_push self name :
  rpc_calls (create_agent name self).2 = rpc_calls self
  ∧ debug_log (create_agent name self).2 = debug_log self
  ∧ peers_list (create_agent name self).2 = peers_list self.
Proof.
  run_all. split_cases; done.
Qed.

(** A failure while ensuring the credentials leaves [create_agent] before
    the manager is asked anything: an exception of the store other than
    [IdentityNotFound], or an exception of the creator, propagates, and the
    manager is untouched. *)
Theorem create_agent_credentials_failure self name e :
  (∀ cs', (∀ n, e ≠ IdentityNotFound n) →
     CredentialsStore.retrieve_credentials name (_credentials_store self) = (Raise e, cs') →
     (create_agent name self).1 = Raise e
     ∧ _authz_manager (create_agent name self).2 = _authz_manager self
     ∧ _credentials_creator (create_agent name self).2 = _credentials_creator self)
  ∧ (∀ n cs' cc',
     CredentialsStore.retrieve_credentials name (_credentials_store self)
     = (Raise (IdentityNotFound n), cs') →
     CredentialsCreator.create name (_credentials_creator self) = (Raise e, cc') →
     (create_agent name self).1 = Raise e
     ∧ _authz_manager (create_agent name self).2 = _authz_manager self
     ∧ _credentials_store (create_agent name self).2 = cs').
Proof.
  split.
  - intros cs' Hother Hget. run_all. rewrite Hget.
    destruct e as [n| | | | | | | |]; simpl; try done. by destruct (Hother n).
  - intros n cs' cc' Hget Hcreate. run_all. rewrite Hget. simpl.
    rewrite Hcreate. done.
Qed.

(** Whatever the peer answers, once the manager's merge has returned the
    merged state is the manager's state after the call, and the
    credentials and the peers are untouched. *)
Theorem create_or_merge_agent_authz_merge_stays
    self am am' result name protected_rpcs roles rpc pubsub comments :
  _authz_manager self = Some am →
  AuthorizationManager.create_or_merge_agent_authz
    name protected_rpcs roles rpc pubsub comments am = (Return result, am') →
  let run := create_or_merge_agent_authz rpc_get name protected_rpcs
               roles rpc pubsub comments self in
  _authz_manager run.2 = Some am'
  ∧ _credentials_store run.2 = _credentials_store self
  ∧ _credentials_creator run.2 = _credentials_creator self
  ∧ peers_list run.2 = peers_list self.
Proof.
  intros Ham Hmerge. run_all. rewrite Ham, Hmerge. simpl.
  split_cases; done.
Qed.

(** An exception of the push other than [Unreachable] and [RemoteError]
    (the timeout of the 5 seconds, say) reaches the caller as it is. *)
Theorem create_or_merge_agent_authz_other_error
    self am am' name protected_rpcs roles rpc pubsub comments e :
  _authz_manager self = Some am →
  AuthorizationManager.create_or_merge_agent_authz
    name protected_rpcs roles rpc pubsub comments am = (Return true, am') →
  truthy_set protected_rpcs = true →
  name ∈ peers_list self →
  rpc_get (mkRpcCall name "rpc.add_protected_rpcs" protected_rpcs 5) = Raise e →
  e ≠ Unreachable → e ≠ RemoteError →
  (create_or_merge_agent_authz rpc_get name protected_rpcs
     roles rpc pubsub comments self).1 = Raise e.
Proof.
  intros Ham Hmerge Htruthy Hpeer Hremote Hne1 Hne2. run_all.
  rewrite Ham, Hmerge. simpl. rewrite Htruthy. simpl.
  rewrite bool_decide_eq_true_2 by done. simpl.
  rewrite Hremote. by destruct e.
Qed.

(** When the manager's merge raises, or no manager is configured, the
    call raises the same exception ([AttributeError] without a manager),
    and nothing is pushed or logged. *)
Theorem create_or_merge_agent_authz_merge_fails
    self name protected_rpcs roles rpc pubsub comments :
  let run := create_or_merge_agent_authz rpc_get name protected_rpcs
               roles rpc pubsub comments self in
  (_authz_manager self = None → run = (Raise AttributeError, self))
  ∧ (∀ am am' e,
       _authz_manager self = Some am →
       AuthorizationManager.create_or_merge_agent_authz
         name protected_rpcs roles rpc pubsub comments am = (Raise e, am') →
       run.1 = Raise e
       ∧ rpc_calls run.2 = rpc_calls self
       ∧ debug_log run.2 = debug_log self).
Proof.
  split.
  - intros Hnone. run_all. by rewrite Hnone.
  - intros am am' e Ham Hmerge. run_all. by rewrite Ham, Hmerge.
Qed.

(** The log gains a line exactly when the push was issued and failed with
    [Unreachable]; the line names the identity. *)
Theorem create_or_merge_agent_authz_log
    self am am' result name protected_rpcs roles rpc pubsub comments :
  _authz_manager self = Some am →
  AuthorizationManager.create_or_merge_agent_authz
    name protected_rpcs roles rpc pubsub comments am = (Return result, am') →
  debug_log (create_or_merge_agent_authz rpc_get name protected_rpcs
               roles rpc pubsub comments self).2
  = (debug_log self
     ++ (if result && truthy_set protected_rpcs && bool_decide (name ∈ peers_list self)
            && bool_decide (rpc_get (mkRpcCall name "rpc.add_protected_rpcs"
                                       protected_rpcs 5) = Raise Unreachable)
         then ["Agent " +:+ name +:+ " is not running. " +:+
               "Authorization changes will get applied on agent start"]
         else []))%list.
Proof.
  intros Ham Hmerge. run_all. rewrite Ham, Hmerge. simpl.
  destruct (result && truthy_set protected_rpcs); simpl; [| by rewrite app_nil_r].
  destruct (bool_decide (name ∈ peers_list self)); simpl; [| by rewrite app_nil_r].
  destruct (rpc_get _) as [[]|[]]; simpl; by rewrite ?app_nil_r.
Qed.

End service_more_facts.

(** ** The service on the credentials dictionary, with any manager *)

Section dict_facts.
Context {AM : Type} {manager_ops : AuthorizationManager.t AM}.

Implicit Types (self : VolttronAuthService (CS := gmap string Credentials) (CC := nat)
                         (AM := AM)).

Ltac run_dict :=
  unfold create_agent, is_credentials, has_credentials_for, add_credentials,
    remove_credentials, remove_agent,
    mbind, mret, Py_bind, Py_ret,
    on_authz_manager, on_credentials_store, on_credentials_creator, try_except,
    throw, gets, modify;
  simpl;
  unfold CredentialsDict.retrieve_credentials, CredentialsDict.store_credentials,
    CredentialsDict.remove_credentials, CredentialsDict.create, modify;
  simpl.

Ltac split_dict :=
  repeat match goal with
         | |- context [match ?x with _ => _ end] =>
             lazymatch x with
             | context [match _ with _ => _ end] => fail
             | _ => destruct x eqn:?; simpl
             end
         | |- context [if ?b then _ else _] =>
             lazymatch b with
             | context [match _ with _ => _ end] => fail
             | context [if _ then _ else _] => fail
             | _ => destruct b eqn:?; simpl
             end
         end.

(** [is_credentials] answers whether the store holds the identity; it
    never raises and changes nothing. *)
Lemma is_credentials_run self name :
  is_credentials name self
  = (Return (bool_decide (is_Some (_credentials_store self !! name))), self).
Proof.
  run_dict. destruct self as [cs cc am peers calls log]. simpl.
  destruct (cs !! name) as [c|] eqn:Hc.
  - by rewrite bool_decide_eq_true_2 by by eexists.
  - rewrite bool_decide_eq_false_2; [done | by intros [? ?]].
Qed.

(** After [create_agent], whatever the manager did (even with no manager
    at all), the identity has credentials; the credentials held before,
    those of the identity included, are the same; and an identity without
    credentials got fresh ones, the only ones issued. *)
Theorem create_agent_ensures_credentials self name :
  let after := (create_agent name self).2 in
  (has_credentials_for name after).1 = Return true
  ∧ (∀ other c, _credentials_store self !! other = Some c →
                _credentials_store after !! other = Some c)
  ∧ (is_Some (_credentials_store self !! name) →
     _credentials_store after = _credentials_store self
     ∧ _credentials_creator after = _credentials_creator self)
  ∧ (_credentials_store self !! name = None →
     _credentials_store after
     = <[name := mkCredentials name (_credentials_creator self)]> (_credentials_store self)
     ∧ _credentials_creator after = S (_credentials_creator self)).
Proof.
  cbv zeta. unfold has_credentials_for. rewrite is_credentials_run. cbn [fst].
  destruct self as [cs cc am peers calls log].
  run_dict. destruct (cs !! name) as [c|] eqn:Hc; simpl.
  - split_dict; simpl;
      (split; [by rewrite bool_decide_eq_true_2 by by eexists |]);
      (split; [done |]); (split; [done |]); by intros [=].
  - split_dict; simpl;
      (split; [by rewrite lookup_insert_eq, bool_decide_eq_true_2 by by eexists |]);
      (split; [intros other c' Hother; rewrite lookup_insert_ne; [done | congruence] |]);
      (split; [by intros [? [=]] | done]).
Qed.

(** [create_agent] is not all-or-nothing: on a service without a manager
    it raises [AttributeError], but only after the credentials were
    ensured, so a new identity is left with credentials and no record. *)
Theorem create_agent_no_manager self name :
  _authz_manager self = None →
  let after := (create_agent name self).2 in
  (create_agent name self).1 = Raise AttributeError
  ∧ (has_credentials_for name after).1 = Return true
  ∧ (_credentials_store self !! name = None →
     _credentials_store after !! name
     = Some (mkCredentials name (_credentials_creator self))
     ∧ _credentials_creator after = S (_credentials_creator self)).
Proof.
  intros Hnone. cbv zeta. unfold has_credentials_for. rewrite is_credentials_run.
  cbn [fst]. destruct self as [cs cc am peers calls log]. simpl in Hnone. subst am.
  run_dict. destruct (cs !! name) as [c|] eqn:Hc; simpl.
  - split; [done |]. split; [| done].
    by rewrite Hc, bool_decide_eq_true_2 by by eexists.
  - split; [done |]. rewrite lookup_insert_eq. split; [| done].
    by rewrite bool_decide_eq_true_2 by by eexists.
Qed.

(** [add_credentials] and [remove_credentials] undo each other: stored
    credentials are found, removing them gives back the store without them,
    and removing credentials that are not stored raises and changes
    nothing. *)
Theorem add_remove_credentials self c :
  (is_credentials (identity c) (add_credentials c self).2).1 = Return true
  ∧ (_credentials_store self !! identity c = None →
     remove_credentials c (add_credentials c self).2 = (Return (), self))
  ∧ (_credentials_store self !! identity c = None →
     remove_credentials c self = (Raise (IdentityNotFound (identity c)), self))
  ∧ (is_Some (_credentials_store self !! identity c) →
     (remove_credentials c self).1 = Return ()
     ∧ (is_credentials (identity c) (remove_credentials c self).2).1 = Return false).
Proof.
  rewrite !is_credentials_run. cbn [fst].
  destruct self as [cs cc am peers calls log]. run_dict.
  split; [| split; [| split]].
  - rewrite lookup_insert_eq. by rewrite bool_decide_eq_true_2 by by eexists.
  - intros Hnone. rewrite lookup_insert_eq. simpl.
    by rewrite delete_insert_id.
  - intros Hnone. by rewrite Hnone.
  - intros [c' Hc']. rewrite Hc'. simpl. split; [done |].
    rewrite lookup_delete_eq. rewrite bool_decide_eq_false_2; [done | by intros [? ?]].
Qed.

End dict_facts.

(** ** Running the bootstrap again *)

Section bootstrap_facts.
Context {known : KnownIdentities}.
Implicit Types (st : PolicyStore.t) (s : gmap string Credentials * nat).

Lemma store_ext st1 st2 :
  PolicyStore.roles st1 = PolicyStore.roles st2 →
  PolicyStore.agent_groups st1 = PolicyStore.agent_groups st2 →
  PolicyStore.agents st1 = PolicyStore.agents st2 →
  st1 = st2.
Proof. destruct st1, st2. simpl. by intros -> -> ->. Qed.

Lemma ensure_all_fixed l s :
  (∀ k, k ∈ l → is_Some (s.1 !! k)) → ensure_all l s = s.
Proof.
  induction l as [|k l IH]; intros Hall; [done |].
  change (ensure_all (k :: l) s) with (ensure_all l (ensure_credentials k s)).
  assert (ensure_credentials k s = s) as ->.
  { unfold ensure_credentials. destruct (Hall k) as [c ->]; [apply list_elem_of_here | done]. }
  apply IH. intros k' Hk'. apply Hall. by apply list_elem_of_further.
Qed.

Lemma ensure_all_idemp l s : ensure_all l (ensure_all l s) = ensure_all l s.
Proof. apply ensure_all_fixed. intros k Hk. by apply ensure_all_covers. Qed.

(** The roles of a store after [merge_role], key by key. *)
Lemma roles_merge_role_lookup name rpc pubsub st i :
  PolicyStore.roles (PolicyStore.merge_role name rpc pubsub st) !! i
  = if bool_decide (i = name) then
      Some (PolicyStore.mkRole
              (PolicyStore.role_rpc_capabilities
                 (default PolicyStore.no_role (PolicyStore.roles st !! i))
               ∪ PolicyStore.given rpc)
              (PolicyStore.role_pubsub_capabilities
                 (default PolicyStore.no_role (PolicyStore.roles st !! i))
               ∪ PolicyStore.given pubsub))
    else PolicyStore.roles st !! i.
Proof.
  unfold PolicyStore.merge_role. simpl. case_bool_decide as Hi.
  - subst i. by rewrite lookup_insert_eq.
  - by rewrite lookup_insert_ne.
Qed.

Lemma roles_seed_roles_again st :
  PolicyStore.roles (seed_roles (seed_roles st)) = PolicyStore.roles (seed_roles st).
Proof.
  apply map_eq. intros i. unfold seed_roles.
  rewrite !roles_merge_role_lookup.
  repeat case_bool_decide; simplify_eq; simpl;
    rewrite ?roles_merge_role_lookup; simpl;
    repeat case_bool_decide; simplify_eq; simpl; try done;
    f_equal; f_equal; by rewrite <- (assoc_L (∪)), (idemp_L (∪)).
Qed.

Lemma roles_seed_roles_ext st1 st2 :
  PolicyStore.roles st1 = PolicyStore.roles st2 →
  PolicyStore.roles (seed_roles st1) = PolicyStore.roles (seed_roles st2).
Proof.
  intros Heq. unfold seed_roles, PolicyStore.merge_role. simpl. by rewrite Heq.
Qed.

(** The record of [x] after the authorization loop over [l]. *)
Lemma agents_seed_all_lookup l x st :
  PolicyStore.agents (seed_all l st) !! x
  = if bool_decide (x ∈ l) then
      Some (let old := default PolicyStore.no_authorization (PolicyStore.agents st !! x) in
            PolicyStore.mkAgentAuthorization
              (PolicyStore.protected_rpcs old ∪ baseline x)
              (PolicyStore.agent_roles old)
              (PolicyStore.agent_rpc_capabilities old)
              (PolicyStore.agent_pubsub_capabilities old)
              (Some init_comments))
    else PolicyStore.agents st !! x.
Proof.
  revert st. induction l as [|k l IH]; intros st.
  - by rewrite bool_decide_eq_false_2 by apply not_elem_of_nil.
  - change (seed_all (k :: l) st) with (seed_all l (seed k st)). rewrite IH.
    destruct (bool_decide_reflect (x = k)) as [->|Hne].
    + rewrite (bool_decide_eq_true_2 (k ∈ k :: l)) by apply list_elem_of_here.
      unfold seed. rewrite merge_agent_authz_lookup. simpl.
      rewrite !(right_id_L ∅ (∪)).
      case_bool_decide; [| done].
      f_equal. f_equal. by rewrite <- (assoc_L (∪)), (idemp_L (∪)).
    + unfold seed. rewrite merge_agent_authz_lookup_ne by done.
      destruct (bool_decide_reflect (x ∈ l)) as [Hin|Hout].
      * by rewrite bool_decide_eq_true_2 by by apply list_elem_of_further.
      * rewrite bool_decide_eq_false_2; [done |].
        intros [->|?]%elem_of_cons; done.
Qed.

Lemma agents_seed_all_again l st :
  PolicyStore.agents (seed_all l (seed_all l st)) = PolicyStore.agents (seed_all l st).
Proof.
  apply map_eq. intros x. rewrite !agents_seed_all_lookup.
  case_bool_decide; [| done]. simpl.
  f_equal. f_equal. by rewrite <- (assoc_L (∪)), (idemp_L (∪)).
Qed.

Lemma agents_seed_all_ext l st1 st2 :
  PolicyStore.agents st1 = PolicyStore.agents st2 →
  PolicyStore.agents (seed_all l st1) = PolicyStore.agents (seed_all l st2).
Proof.
  intros Heq. apply map_eq. intros x. by rewrite !agents_seed_all_lookup, Heq.
Qed.

Lemma agents_merge_agent_group name members ars rpc pubsub st :
  PolicyStore.agents (PolicyStore.merge_agent_group name members ars rpc pubsub st)
  = PolicyStore.agents st.
Proof. reflexivity. Qed.

Lemma agents_merge_role name rpc pubsub st :
  PolicyStore.agents (PolicyStore.merge_role name rpc pubsub st) = PolicyStore.agents st.
Proof. reflexivity. Qed.

Lemma agents_bootstrap st :
  PolicyStore.agents (bootstrap st) = PolicyStore.agents (seed_all volttron_services st).
Proof.
  unfold bootstrap. rewrite agents_merge_agent_group.
  apply agents_seed_all_ext. unfold seed_roles. by rewrite !agents_merge_role.
Qed.

Lemma agent_groups_bootstrap_all st :
  PolicyStore.agent_groups (bootstrap st)
  = <["admin_users" :=
        (let old := default PolicyStore.no_group
                      (PolicyStore.agent_groups st !! "admin_users") in
         PolicyStore.mkAgentGroup
           (PolicyStore.identities old ∪ list_to_set volttron_services)
           (PolicyStore.group_agent_roles old ∪ {[ mkAgentRole "admin" ∅ ]})
           (PolicyStore.group_rpc_capabilities old)
           (PolicyStore.group_pubsub_capabilities old))]>
      (PolicyStore.agent_groups st).
Proof.
  unfold bootstrap, PolicyStore.merge_agent_group.
  cbn [PolicyStore.agent_groups]. rewrite agent_groups_seed_all.
  change (PolicyStore.agent_groups (seed_roles st)) with (PolicyStore.agent_groups st).
  simpl. by rewrite !(right_id_L ∅ (∪)).
Qed.

(** Seeding a seeded store changes nothing. *)
Lemma bootstrap_idemp st : bootstrap (bootstrap st) = bootstrap st.
Proof.
  apply store_ext.
  - rewrite !roles_bootstrap.
    rewrite (roles_seed_roles_ext (bootstrap st) (seed_roles st)) by apply roles_bootstrap.
    apply roles_seed_roles_again.
  - rewrite (agent_groups_bootstrap_all (bootstrap st)).
    rewrite !agent_groups_bootstrap_all. rewrite lookup_insert_eq. simpl.
    rewrite insert_insert_eq. f_equal. f_equal; by rewrite <- (assoc_L (∪)), (idemp_L (∪)).
  - rewrite (agents_bootstrap (bootstrap st)).
    rewrite (agents_seed_all_ext _ (bootstrap st) (seed_all volttron_services st))
      by apply agents_bootstrap.
    rewrite agents_bootstrap. apply agents_seed_all_again.
Qed.

(** In a seeded store every reserved identity has capabilities, through
    the group "admin_users" and the role "admin". *)
Lemma bootstrap_reserved_truthy st k :
  k ∈ volttron_services →
  truthy_capabilities (PolicyStore.effective_capabilities (bootstrap st) k) = true.
Proof.
  intros Hk.
  pose proof (agent_groups_bootstrap st) as Hgroup. cbv zeta in Hgroup.
  assert (∃ r, PolicyStore.roles (bootstrap st) !! "admin" = Some r
               ∧ mkRPCCapability "/.*/" ∅ ∈ PolicyStore.role_rpc_capabilities r)
    as (r & Hr & Hcap).
  { rewrite roles_bootstrap. unfold seed_roles. rewrite roles_merge_role_lookup.
    rewrite bool_decide_eq_true_2 by done. eexists. split; [done |]. simpl.
    apply elem_of_union. right. by apply elem_of_singleton. }
  apply (truthy_capabilities_rpc _
           (PolicyStore.restrict (mkAgentRole "admin" ∅) (mkRPCCapability "/.*/" ∅))).
  unfold PolicyStore.effective_capabilities. simpl. apply elem_of_union. right.
  unfold PolicyStore.group_capabilities. apply rpc_capabilities_union_list.
  eexists. split.
  - apply list_elem_of_fmap. eexists. split; [reflexivity |].
    apply list_elem_of_fmap. eexists (_, _). split; [reflexivity |].
    apply elem_of_map_to_list. exact Hgroup.
  - cbv beta. cbn [PolicyStore.identities PolicyStore.group_agent_roles].
    rewrite bool_decide_eq_true_2.
    2:{ apply elem_of_union. right. by apply elem_of_list_to_set. }
    apply elem_of_union. right.
    unfold PolicyStore.assigned_capabilities. apply rpc_capabilities_union_list.
    exists (PolicyStore.role_capabilities (bootstrap st) (mkAgentRole "admin" ∅)). split.
    + apply list_elem_of_fmap. eexists. split; [reflexivity |].
      apply elem_of_elements. apply elem_of_union. right. by apply elem_of_singleton.
    + unfold PolicyStore.role_capabilities. cbn [role_name]. rewrite Hr.
      cbn [rpc_capabilities]. by apply elem_of_map_2.
Qed.

End bootstrap_facts.

(** ** The service on the Policy Store *)

Section policy_facts.
Variable re_fullmatch : string → string → bool.
Context {known : KnownIdentities} {names : PolicyStore.MethodNames}.

#[local] Instance policy_manager : AuthorizationManager.t PolicyStore.t :=
  PolicyStore.manager re_fullmatch.

Implicit Types (self : VolttronAuthService (CS := gmap string Credentials) (CC := nat)
                         (AM := PolicyStore.t)).
Implicit Types (st : PolicyStore.t).

Ltac run_policy :=
  unfold mbind, mret, Py_bind, Py_ret,
    on_authz_manager, on_credentials_store, on_credentials_creator, try_except,
    throw, gets, modify;
  simpl.

Lemma credentials_round self k :
  try_except
    (on_credentials_store (CredentialsStore.retrieve_credentials k) ;; mret ())
    (λ e, match e with
          | IdentityNotFound _ =>
              Some (creds ← on_credentials_creator (CredentialsCreator.create k);
                    on_credentials_store (CredentialsStore.store_credentials creds))
          | _ => None
          end) self
  = (Return (), with_credentials (ensure_credentials k) self).
Proof.
  run_policy. unfold CredentialsDict.retrieve_credentials, with_credentials,
    ensure_credentials. simpl.
  destruct self as [cs cc am peers calls log]. simpl.
  destruct (cs !! k); done.
Qed.

Lemma authz_round self st k :
  _authz_manager self = Some st →
  ((if bool_decide (k = CONFIGURATION_STORE) then
      on_authz_manager (AuthorizationManager.create_or_merge_agent_authz k
        (Some {[ "set_config"; "delete_config"; "delete_store"; "initialize_configs";
                 "config_update"; "initial_config" ]})
        None None None (Some init_comments)) ;; mret ()
    else mret ()) ;;
   (if bool_decide (k = AUTH) then
      on_authz_manager (AuthorizationManager.create_or_merge_agent_authz k
        (Some {[ "create_agent"; "remove_agent"; "create_or_merge_role";
                 "create_or_merge_agent_group"; "create_or_merge_agent_authz";
                 "create_protected_topics"; "remove_agents_from_group";
                 "add_agents_to_group"; "remove_protected_topics";
                 "remove_agent_authorization"; "remove_agent_group"; "remove_role" ]})
        None None None (Some init_comments)) ;; mret ()
    else
      on_authz_manager (AuthorizationManager.create_or_merge_agent_authz k
        None None None None (Some init_comments)) ;; mret ())) self
  = (Return (), with_manager (seed k) self).
Proof.
  intros Hst. unfold with_manager, seed, baseline. rewrite Hst.
  destruct (bool_decide (k = CONFIGURATION_STORE)), (bool_decide (k = AUTH));
    run_policy; rewrite Hst; simpl; do 3 f_equal;
    rewrite ?merge_agent_authz_twice;
    apply merge_agent_authz_ext; simpl;
    rewrite ?(left_id_L ∅ (∪)), ?(right_id_L ∅ (∪)); done.
Qed.

Lemma credentials_loop self l :
  for_each l (λ k,
    try_except
      (on_credentials_store (CredentialsStore.retrieve_credentials k) ;; mret ())
      (λ e, match e with
            | IdentityNotFound _ =>
                Some (creds ← on_credentials_creator (CredentialsCreator.create k);
                      on_credentials_store (CredentialsStore.store_credentials creds))
            | _ => None
            end)) self
  = (Return (), with_credentials (ensure_all l) self).
Proof.
  revert self. induction l as [|k l IH]; intros self.
  - by destruct self.
  - rewrite for_each_cons, credentials_round, IH.
    unfold with_credentials. simpl. by rewrite <- surjective_pairing.
Qed.

Lemma authz_loop self st l :
  _authz_manager self = Some st →
  for_each l (λ k,
    (if bool_decide (k = CONFIGURATION_STORE) then
       on_authz_manager (AuthorizationManager.create_or_merge_agent_authz k
         (Some {[ "set_config"; "delete_config"; "delete_store"; "initialize_configs";
                  "config_update"; "initial_config" ]})
         None None None (Some init_comments)) ;; mret ()
     else mret ()) ;;
    (if bool_decide (k = AUTH) then
       on_authz_manager (AuthorizationManager.create_or_merge_agent_authz k
         (Some {[ "create_agent"; "remove_agent"; "create_or_merge_role";
                  "create_or_merge_agent_group"; "create_or_merge_agent_authz";
                  "create_protected_topics"; "remove_agents_from_group";
                  "add_agents_to_group"; "remove_protected_topics";
                  "remove_agent_authorization"; "remove_agent_group"; "remove_role" ]})
         None None None (Some init_comments)) ;; mret ()
     else
       on_authz_manager (AuthorizationManager.create_or_merge_agent_authz k
         None None None None (Some init_comments)) ;; mret ())) self
  = (Return (), with_manager (seed_all l) self).
Proof.
  revert self st. induction l as [|k l IH]; intros self st Hst.
  - unfold with_manager. rewrite Hst. destruct self; simpl in *; by subst.
  - rewrite for_each_cons, (authz_round self st k Hst).
    rewrite (IH _ (seed k st)) by (unfold with_manager; simpl; by rewrite Hst).
    unfold with_manager. simpl. by rewrite Hst.
Qed.

Lemma on_authz_manager_run {A} (c : Py PolicyStore.t A) self st :
  _authz_manager self = Some st →
  on_authz_manager c self = ((c st).1, with_manager (λ _, (c st).2) self).
Proof.
  intros Hst. unfold on_authz_manager, with_manager. rewrite Hst.
  by destruct (c st).
Qed.

Lemma with_manager_manager (f : PolicyStore.t → PolicyStore.t) self st :
  _authz_manager self = Some st → _authz_manager (with_manager f self) = Some (f st).
Proof. intros Hst. unfold with_manager. simpl. by rewrite Hst. Qed.

Lemma with_manager_compose (g f : PolicyStore.t → PolicyStore.t) self :
  with_manager g (with_manager f self) = with_manager (g ∘ f) self.
Proof. unfold with_manager. simpl. by destruct (_authz_manager self). Qed.

Lemma retrieve_run self k c :
  _credentials_store self !! k = Some c →
  on_credentials_store (CredentialsStore.retrieve_credentials k) self = (Return c, self).
Proof.
  intros Hk. unfold on_credentials_store. simpl.
  unfold CredentialsDict.retrieve_credentials. rewrite Hk. by destruct self.
Qed.

Lemma on_authz_role self st name rpc pubsub :
  _authz_manager self = Some st →
  on_authz_manager (AuthorizationManager.create_or_merge_role name rpc pubsub) self
  = (Return true, with_manager (PolicyStore.merge_role name rpc pubsub) self).
Proof.
  intros Hst. rewrite (on_authz_manager_run _ self st Hst).
  unfold with_manager. by rewrite Hst.
Qed.

Lemma on_authz_group self st name members ars rpc pubsub :
  _authz_manager self = Some st →
  on_authz_manager
    (AuthorizationManager.create_or_merge_agent_group name members ars rpc pubsub) self
  = (Return true,
     with_manager (PolicyStore.merge_agent_group name members ars rpc pubsub) self).
Proof.
  intros Hst. rewrite (on_authz_manager_run _ self st Hst).
  unfold with_manager. by rewrite Hst.
Qed.

Lemma on_authz_authz self st name p a r q c :
  _authz_manager self = Some st →
  on_authz_manager (AuthorizationManager.create_or_merge_agent_authz name p a r q c) self
  = (Return true, with_manager (PolicyStore.merge_agent_authz name p a r q c) self).
Proof.
  intros Hst. rewrite (on_authz_manager_run _ self st Hst).
  unfold with_manager. by rewrite Hst.
Qed.

Lemma on_authz_capabilities self st name :
  _authz_manager self = Some st →
  on_authz_manager (AuthorizationManager.get_agent_capabilities name) self
  = (Return (PolicyStore.effective_capabilities st name), self).
Proof.
  intros Hst. rewrite (on_authz_manager_run _ self st Hst).
  unfold with_manager. rewrite Hst. by destruct self; simpl in *; subst.
Qed.

(** What [__init__] does when a manager is configured. *)
Lemma init_run self st :
  _authz_manager self = Some st →
  __init__ self
  = (Return (), with_manager bootstrap (with_credentials (ensure_all volttron_services) self)).
Proof.
  intros Hst. unfold __init__.
  unfold mbind at 1. unfold Py_bind at 1. rewrite credentials_loop.
  set (self1 := with_credentials (ensure_all volttron_services) self).
  assert (_authz_manager self1 = Some st) as Hst1 by done.
  erewrite bind_run; [| unfold gets; by rewrite Hst1]. cbv beta iota.
  erewrite bind_run.
  2:{ erewrite bind_run; [| by eapply on_authz_role].
      erewrite bind_run;
        [| by eapply on_authz_role, with_manager_manager].
      erewrite bind_run;
        [| by eapply on_authz_role, with_manager_manager, with_manager_manager].
      erewrite bind_run;
        [| by eapply authz_loop, with_manager_manager, with_manager_manager,
                     with_manager_manager].
      erewrite bind_run;
        [| by eapply on_authz_group, with_manager_manager, with_manager_manager,
                     with_manager_manager, with_manager_manager].
      reflexivity. }
  destruct (ensure_all_covers volttron_services AUTH
              (_credentials_store self, _credentials_creator self)) as [c Hc].
  { unfold volttron_services. apply list_elem_of_further, list_elem_of_here. }
  erewrite bind_run; [| apply retrieve_run; exact Hc].
  unfold mret, Py_ret. f_equal.
  rewrite !with_manager_compose. reflexivity.
Qed.

(** What [create_agent] does when a manager is configured. *)
Lemma create_agent_run self st name :
  _authz_manager self = Some st →
  create_agent name self
  = (Return true,
     with_manager
       (λ st, if truthy_capabilities (PolicyStore.effective_capabilities st name)
              then st else provision name st)
       (with_credentials (ensure_credentials name) self)).
Proof.
  intros Hst. unfold create_agent.
  erewrite bind_run; [| apply credentials_round].
  assert (_authz_manager (with_credentials (ensure_credentials name) self) = Some st)
    as Hst1 by done.
  generalize dependent (with_credentials (ensure_credentials name) self).
  intros self1 Hst1.
  erewrite bind_run; [| by apply on_authz_capabilities].
  unfold with_manager. rewrite Hst1. cbn [fmap option_fmap option_map].
  destruct (truthy_capabilities (PolicyStore.effective_capabilities st name)); simpl.
  - unfold mbind, Py_bind, mret, Py_ret. f_equal.
    destruct self1; simpl in *; by subst.
  - erewrite bind_run.
    2:{ erewrite bind_run; [| by eapply on_authz_authz]. reflexivity. }
    unfold mret, Py_ret, with_manager. by rewrite Hst1.
Qed.


(** The caller's own record does not open anything: a method in the
    target's protected set is refused to a caller without RPC
    capabilities, whether or not the caller has a record. *)
Lemma check_rpc_authorization_protected self st name method_name method_args :
  _authz_manager self = Some st →
  PolicyStore.method_of method_name
    ∈ PolicyStore.protected_of st (PolicyStore.target_of method_name) →
  rpc_capabilities (PolicyStore.effective_capabilities st name) = ∅ →
  check_rpc_authorization name method_name method_args self = (Return false, self).
Proof.
  intros Hst Hprotected Hnone.
  assert (PolicyStore.decide_rpc re_fullmatch st name method_name method_args
          = PolicyStore.Resolved (PolicyStore.effective_capabilities st name) false)
    as Hdecide.
  { unfold PolicyStore.decide_rpc. rewrite bool_decide_eq_true_2 by done.
    cbv zeta. by rewrite Hnone, elements_empty. }
  unfold check_rpc_authorization.
  rewrite (on_authz_manager_run _ self st Hst).
  unfold AuthorizationManager.check_rpc_authorization, policy_manager,
    PolicyStore.manager, PolicyStore.check_rpc_authorization, gets.
  cbn [fst snd]. rewrite Hdecide.
  unfold with_manager. rewrite Hst. by destruct self; simpl in *; subst.
Qed.

(** C6: two calls of [create_agent] in a row both return [True], and the
    second leaves the service as the first left it: the credentials and
    the number of credentials issued, the policy store and everything
    else.  When the role "default_rpc_capabilities" grants something,
    the identity's capabilities are non-empty after the first call, so
    the second call does not reach the merge at all. *)
Theorem create_agent_twice self st name :
  _authz_manager self = Some st →
  let first := create_agent name self in
  let second := create_agent name first.2 in
  first.1 = Return true
  ∧ second.1 = Return true
  ∧ second.2 = first.2
  ∧ ((∃ r, PolicyStore.roles st !! "default_rpc_capabilities" = Some r
           ∧ PolicyStore.role_rpc_capabilities r ≠ ∅) →
     ∃ st1, _authz_manager first.2 = Some st1
            ∧ truthy_capabilities (PolicyStore.effective_capabilities st1 name) = true).
Proof.
  intros Hst. simpl.
  rewrite (create_agent_run self st name Hst). simpl.
  set (F := λ st, if truthy_capabilities (PolicyStore.effective_capabilities st name)
                  then st else provision name st).
  set (self1 := with_manager F (with_credentials (ensure_credentials name) self)).
  assert (_authz_manager self1 = Some (F st)) as Hst1.
  { unfold self1, with_manager. simpl. by rewrite Hst. }
  rewrite (create_agent_run self1 (F st) name Hst1). simpl. fold F.
  assert (F (F st) = F st) as Hidemp.
  { unfold F at 2 3.
    destruct (truthy_capabilities (PolicyStore.effective_capabilities st name)) eqn:Hcaps.
    - unfold F. by rewrite Hcaps.
    - unfold F.
      destruct (truthy_capabilities
                  (PolicyStore.effective_capabilities (provision name st) name));
        [done | apply provision_idemp]. }
  split; [done |]. split; [done |]. split.
  - unfold self1, with_manager, with_credentials. simpl.
    rewrite <- !surjective_pairing, ensure_credentials_idemp, Hst. simpl.
    by rewrite Hidemp.
  - intros (r & Hr & Hne). exists (F st). split; [done |].
    unfold F.
    destruct (truthy_capabilities (PolicyStore.effective_capabilities st name)) eqn:Hcaps;
      [done | by eapply provision_truthy].
Qed.

(** C7: for an identity whose effective capabilities are empty,
    [create_agent] returns [True] and merges into the identity's record
    the role "default_rpc_capabilities" restricted to [identity] being
    that identity, and the four self-management methods as protected; the
    roles, the groups and the other records are untouched. *)
Theorem create_agent_first_provisioning self st name :
  _authz_manager self = Some st →
  PolicyStore.effective_capabilities st name = ∅ →
  let old := default PolicyStore.no_authorization (PolicyStore.agents st !! name) in
  (create_agent name self).1 = Return true
  ∧ ∃ st', _authz_manager (create_agent name self).2 = Some st'
           ∧ PolicyStore.agents st' !! name
             = Some (PolicyStore.mkAgentAuthorization
                       (PolicyStore.protected_rpcs old
                        ∪ {[ "config.update"; "config.initial_update";
                             "rpc.add_protected_rpcs"; "rpc.remove_protected_rpcs" ]})
                       (PolicyStore.agent_roles old
                        ∪ {[ mkAgentRole "default_rpc_capabilities"
                                         {[ "identity" := name ]} ]})
                       (PolicyStore.agent_rpc_capabilities old)
                       (PolicyStore.agent_pubsub_capabilities old)
                       (Some "default authorization for new user"))
           ∧ PolicyStore.roles st' = PolicyStore.roles st
           ∧ PolicyStore.agent_groups st' = PolicyStore.agent_groups st
           ∧ ∀ other, other ≠ name →
                      PolicyStore.agents st' !! other = PolicyStore.agents st !! other.
Proof.
  intros Hst Hempty. cbv zeta.
  rewrite (create_agent_run self st name Hst). cbn [fst snd].
  split; [done |].
  erewrite with_manager_manager by done. rewrite Hempty.
  exists (provision name st). split; [done |]. split; [| split; [done |]; split; [done |]].
  - unfold provision. rewrite merge_agent_authz_lookup. simpl.
    by rewrite !(right_id_L ∅ (∪)).
  - intros other Hother. unfold provision.
    by rewrite merge_agent_authz_lookup_ne.
Qed.

(** After [__init__] the protected set of every identity is what it was,
    joined with its baseline if the identity is reserved. *)
Lemma init_protected_rpcs_merge self st k :
  _authz_manager self = Some st →
  (get_protected_rpcs k (__init__ self).2).1
  = Return (PolicyStore.protected_of st k
            ∪ (if bool_decide (k ∈ volttron_services) then baseline k else ∅)).
Proof.
  intros Hst. rewrite (init_run self _ Hst). cbn [fst snd].
  unfold get_protected_rpcs.
  erewrite on_authz_manager_run by (by eapply with_manager_manager).
  cbn [fst]. unfold AuthorizationManager.get_protected_rpcs, policy_manager,
    PolicyStore.manager, PolicyStore.get_protected_rpcs, gets. cbn [fst].
  by rewrite protected_of_bootstrap.
Qed.

(** Without a manager [create_agent] still ensures the credentials, then
    fails on the attribute lookup on [None]. *)
Lemma create_agent_without_manager self name :
  _authz_manager self = None →
  (create_agent name self).1 = Raise AttributeError.
Proof.
  intros Hnone. unfold create_agent.
  erewrite bind_run; [| apply credentials_round].
  unfold mbind, Py_bind, on_authz_manager, with_credentials. simpl.
  by rewrite Hnone.
Qed.

(** C8: after [__init__] on a fresh policy store, the protected set of
    AUTH is exactly its twelve policy-mutation methods, hence non-empty;
    the configuration store gets its six configuration methods, and every
    other reserved identity gets an empty protected set. *)
Theorem init_protected_rpcs self :
  _authz_manager self = Some PolicyStore.empty →
  AUTH ≠ CONFIGURATION_STORE →
  let booted := (__init__ self).2 in
  (__init__ self).1 = Return ()
  ∧ (get_protected_rpcs AUTH booted).1
    = Return {[ "create_agent"; "remove_agent"; "create_or_merge_role";
                "create_or_merge_agent_group"; "create_or_merge_agent_authz";
                "create_protected_topics"; "remove_agents_from_group";
                "add_agents_to_group"; "remove_protected_topics";
                "remove_agent_authorization"; "remove_agent_group"; "remove_role" ]}
  ∧ (get_protected_rpcs AUTH booted).1 ≠ Return ∅
  ∧ (get_protected_rpcs CONFIGURATION_STORE booted).1
    = Return {[ "set_config"; "delete_config"; "delete_store"; "initialize_configs";
                "config_update"; "initial_config" ]}
  ∧ ∀ k, k ∈ volttron_services → k ≠ AUTH → k ≠ CONFIGURATION_STORE →
         (get_protected_rpcs k booted).1 = Return ∅.
Proof.
  intros Hst Hne. cbv zeta.
  assert (∀ k, (get_protected_rpcs k (__init__ self).2).1
               = Return (if bool_decide (k ∈ volttron_services) then baseline k else ∅))
    as Hget.
  { intros k. rewrite (init_protected_rpcs_merge self _ k Hst). f_equal.
    unfold PolicyStore.protected_of, PolicyStore.empty. simpl.
    rewrite lookup_empty. by rewrite (left_id_L ∅ (∪)). }
  assert (AUTH ∈ volttron_services) as Hauth
    by apply list_elem_of_further, list_elem_of_here.
  assert (CONFIGURATION_STORE ∈ volttron_services) as Hconfig
    by apply list_elem_of_here.
  assert (baseline AUTH
          = {[ "create_agent"; "remove_agent"; "create_or_merge_role";
               "create_or_merge_agent_group"; "create_or_merge_agent_authz";
               "create_protected_topics"; "remove_agents_from_group";
               "add_agents_to_group"; "remove_protected_topics";
               "remove_agent_authorization"; "remove_agent_group"; "remove_role" ]})
    as Hbase.
  { unfold baseline. rewrite bool_decide_eq_false_2 by done.
    rewrite bool_decide_eq_true_2 by done. by rewrite (left_id_L ∅ (∪)). }
  split; [by rewrite (init_run self _ Hst) |]. rewrite !Hget.
  rewrite (bool_decide_eq_true_2 _ Hauth), (bool_decide_eq_true_2 _ Hconfig), Hbase.
  split; [done |]. split; [| split].
  - intros Hempty.
    pose proof (f_equal (λ o : Outcome (gset string),
                           match o with Return x => x | Raise _ => ∅ end) Hempty)
      as Hsets.
    cbv beta iota in Hsets.
    apply (not_elem_of_empty (C := gset string) "remove_role").
    rewrite <- Hsets. apply elem_of_union. right. by apply elem_of_singleton.
  - unfold baseline. rewrite bool_decide_eq_true_2 by done.
    rewrite bool_decide_eq_false_2 by done. by rewrite (right_id_L ∅ (∪)).
  - intros k Hk Hk1 Hk2. rewrite Hget, (bool_decide_eq_true_2 _ Hk).
    unfold baseline. rewrite !bool_decide_eq_false_2 by done.
    by rewrite (left_id_L ∅ (∪)).
Qed.

(** C9: on a fresh policy store with a manager configured, [__init__]
    leaves exactly three roles: "default_rpc_capabilities" with the four
    configuration-store capabilities, "sync_agent_config" with the two
    config-sync capabilities, and "admin" with the RPC pattern [/.*/] and
    the pubsub pattern [/.*/] of access "pubsub", a regex pattern whose
    text is [.*]; and the group "admin_users" whose members are the
    reserved identities and whose role assignments are the admin role. *)
Theorem init_roles_and_group self :
  _authz_manager self = Some PolicyStore.empty →
  (__init__ self).1 = Return ()
  ∧ ∃ st', _authz_manager (__init__ self).2 = Some st'
     ∧ PolicyStore.roles st'
       = <["admin" := PolicyStore.mkRole
                        {[ mkRPCCapability "/.*/" ∅ ]}
                        {[ mkPubsubCapability "/.*/" "pubsub" ]}]>
         (<["sync_agent_config" := PolicyStore.mkRole
                        {[ mkRPCCapability "config.store.config_update" ∅;
                           mkRPCCapability "config.store.initial_update" ∅ ]} ∅]>
         (<["default_rpc_capabilities" := PolicyStore.mkRole
                        {[ mkRPCCapability (CONFIGURATION_STORE +:+ ".initialize_configs") ∅;
                           mkRPCCapability (CONFIGURATION_STORE +:+ ".set_config") ∅;
                           mkRPCCapability (CONFIGURATION_STORE +:+ ".delete_store") ∅;
                           mkRPCCapability (CONFIGURATION_STORE +:+ ".delete_config") ∅ ]}
                        ∅]> ∅))
     ∧ dom (PolicyStore.roles st')
       = {[ "default_rpc_capabilities"; "sync_agent_config"; "admin" ]}
     ∧ (∀ candidate, PolicyStore.pattern_matches re_fullmatch "/.*/" candidate
                     = re_fullmatch ".*" candidate)
     ∧ PolicyStore.agent_groups st' !! "admin_users"
       = Some (PolicyStore.mkAgentGroup (list_to_set volttron_services)
                                        {[ mkAgentRole "admin" ∅ ]} ∅ ∅).
Proof.
  intros Hst. rewrite (init_run self _ Hst). cbn [fst snd].
  split; [done |].
  exists (bootstrap PolicyStore.empty).
  split; [by erewrite with_manager_manager by done |].
  assert (PolicyStore.roles (bootstrap PolicyStore.empty)
          = <["admin" := PolicyStore.mkRole
                        {[ mkRPCCapability "/.*/" ∅ ]}
                        {[ mkPubsubCapability "/.*/" "pubsub" ]}]>
         (<["sync_agent_config" := PolicyStore.mkRole
                        {[ mkRPCCapability "config.store.config_update" ∅;
                           mkRPCCapability "config.store.initial_update" ∅ ]} ∅]>
         (<["default_rpc_capabilities" := PolicyStore.mkRole
                        {[ mkRPCCapability (CONFIGURATION_STORE +:+ ".initialize_configs") ∅;
                           mkRPCCapability (CONFIGURATION_STORE +:+ ".set_config") ∅;
                           mkRPCCapability (CONFIGURATION_STORE +:+ ".delete_store") ∅;
                           mkRPCCapability (CONFIGURATION_STORE +:+ ".delete_config") ∅ ]}
                        ∅]> ∅))) as Hroles.
  { rewrite roles_bootstrap. unfold seed_roles, PolicyStore.merge_role. simpl.
    rewrite ?lookup_insert_ne by done. rewrite !lookup_empty. simpl.
    by rewrite ?(left_id_L ∅ (∪)), ?(right_id_L ∅ (∪)). }
  split; [exact Hroles |]. split; [| split].
  - rewrite Hroles, !dom_insert_L, dom_empty_L.
    rewrite (right_id_L ∅ (∪)).
    rewrite (comm_L (∪) {[ "admin" ]}), (comm_L (∪) {[ "sync_agent_config" ]}).
    reflexivity.
  - intros candidate. reflexivity.
  - rewrite agent_groups_bootstrap. unfold PolicyStore.empty. simpl.
    rewrite lookup_empty. simpl. by rewrite !(left_id_L ∅ (∪)).
Qed.

(** *** Removal, and how it composes with provisioning *)

Ltac run_remove :=
  unfold remove_agent, remove_agent_authorization, mbind, mret, Py_bind, Py_ret,
    on_authz_manager, on_credentials_store;
  simpl;
  unfold CredentialsDict.remove_credentials, PolicyStore.remove_agent_authorization;
  simpl.

Lemma remove_agent_run self st name c a :
  _authz_manager self = Some st →
  _credentials_store self !! name = Some c →
  PolicyStore.agents st !! name = Some a →
  remove_agent name self
  = (Return true,
     mkService (delete name (_credentials_store self)) (_credentials_creator self)
               (Some (PolicyStore.mkStore (PolicyStore.roles st) (PolicyStore.agent_groups st)
                        (delete name (PolicyStore.agents st))))
               (peers_list self) (rpc_calls self) (debug_log self)).
Proof.
  intros Hst Hc Ha. run_remove. rewrite Hc. simpl. rewrite Hst. simpl. by rewrite Ha.
Qed.

(** For an identity that has credentials and a record, [remove_agent]
    returns [True]; afterwards the identity has no credentials and no
    protected method, and the credentials and records of the others are
    as before. *)
Theorem remove_agent_removes_both self st name c a :
  _authz_manager self = Some st →
  _credentials_store self !! name = Some c →
  PolicyStore.agents st !! name = Some a →
  let after := (remove_agent name self).2 in
  (remove_agent name self).1 = Return true
  ∧ (has_credentials_for name after).1 = Return false
  ∧ (get_protected_rpcs name after).1 = Return ∅
  ∧ ∀ other, other ≠ name →
      _credentials_store after !! other = _credentials_store self !! other
      ∧ (get_protected_rpcs other after).1 = Return (PolicyStore.protected_of st other).
Proof.
  intros Hst Hc Ha. cbv zeta. rewrite (remove_agent_run self st name c a Hst Hc Ha).
  cbn [fst snd]. split; [done |].
  unfold has_credentials_for. rewrite is_credentials_run. cbn [fst].
  unfold get_protected_rpcs, on_authz_manager. simpl.
  rewrite lookup_delete_eq. split; [| split].
  - rewrite bool_decide_eq_false_2; [done | by intros [? ?]].
  - unfold PolicyStore.protected_of. simpl. by rewrite lookup_delete_eq.
  - intros other Hother. unfold PolicyStore.protected_of. simpl.
    by rewrite !lookup_delete_ne.
Qed.

(** [remove_agent] is not all-or-nothing: when the authorization removal
    fails, for want of a record or of a manager, the call raises and the
    credentials are gone all the same. *)
Theorem remove_agent_half_done self name c :
  _credentials_store self !! name = Some c →
  (∀ st, _authz_manager self = Some st → PolicyStore.agents st !! name = None →
         (remove_agent name self).1 = Raise (NotFound name)
         ∧ _credentials_store (remove_agent name self).2 !! name = None
         ∧ _authz_manager (remove_agent name self).2 = Some st)
  ∧ (_authz_manager self = None →
     (remove_agent name self).1 = Raise AttributeError
     ∧ _credentials_store (remove_agent name self).2 !! name = None).
Proof.
  intros Hc. split.
  - intros st Hst Ha. run_remove. rewrite Hc. simpl. rewrite Hst. simpl.
    rewrite Ha. simpl. rewrite lookup_delete_eq. by destruct st.
  - intros Hnone. run_remove. rewrite Hc. simpl. rewrite Hnone. simpl.
    by rewrite lookup_delete_eq.
Qed.

(** Provisioning a new identity and removing it again gives back the
    credentials store and the policy store as they were; only the count of
    credentials issued has moved. *)
Theorem create_then_remove_agent self st name :
  _authz_manager self = Some st →
  _credentials_store self !! name = None →
  PolicyStore.agents st !! name = None →
  PolicyStore.effective_capabilities st name = ∅ →
  (create_agent name self).1 = Return true
  ∧ remove_agent name (create_agent name self).2
    = (Return true,
       mkService (_credentials_store self) (S (_credentials_creator self)) (Some st)
                 (peers_list self) (rpc_calls self) (debug_log self)).
Proof.
  intros Hst Hc Ha Hempty.
  rewrite (create_agent_run self st name Hst). cbn [fst snd]. split; [done |].
  set (after := with_manager _ _).
  assert (_authz_manager after = Some (provision name st)) as Hst'.
  { unfold after, with_manager. simpl. rewrite Hst. simpl. by rewrite Hempty. }
  assert (_credentials_store after !! name
          = Some (mkCredentials name (_credentials_creator self))) as Hc'.
  { unfold after, with_credentials, ensure_credentials. simpl. rewrite Hc. simpl.
    apply lookup_insert_eq. }
  pose proof (merge_agent_authz_lookup name
                (Some {[ "config.update"; "config.initial_update";
                         "rpc.add_protected_rpcs"; "rpc.remove_protected_rpcs" ]})
                (Some {[ mkAgentRole "default_rpc_capabilities" {[ "identity" := name ]} ]})
                None None (Some "default authorization for new user") st) as Ha'.
  rewrite (remove_agent_run after _ name _ _ Hst' Hc' Ha').
  unfold after, with_manager, with_credentials, ensure_credentials. simpl.
  rewrite Hc. simpl. rewrite delete_insert_id by done. do 3 f_equal.
  unfold PolicyStore.merge_agent_authz. simpl.
  rewrite delete_insert_id by done. by destruct st.
Qed.

(** After [remove_agent_authorization] the credentials are still there,
    and the next [create_agent] for an identity without group capabilities
    gives it the default record again: whatever the removed record held is
    not restored. *)
Theorem reprovision_after_removal self st name a :
  _authz_manager self = Some st →
  PolicyStore.agents st !! name = Some a →
  PolicyStore.group_capabilities st name = ∅ →
  is_Some (_credentials_store self !! name) →
  let removed := (remove_agent_authorization name self).2 in
  (remove_agent_authorization name self).1 = Return true
  ∧ (create_agent name removed).1 = Return true
  ∧ _credentials_store (create_agent name removed).2 = _credentials_store self
  ∧ _credentials_creator (create_agent name removed).2 = _credentials_creator self
  ∧ ∃ st', _authz_manager (create_agent name removed).2 = Some st'
      ∧ PolicyStore.agents st' !! name
        = Some (PolicyStore.mkAgentAuthorization
                  {[ "config.update"; "config.initial_update";
                     "rpc.add_protected_rpcs"; "rpc.remove_protected_rpcs" ]}
                  {[ mkAgentRole "default_rpc_capabilities" {[ "identity" := name ]} ]}
                  ∅ ∅ (Some "default authorization for new user")).
Proof.
  intros Hst Ha Hgroups [c Hc]. cbv zeta.
  set (st1 := PolicyStore.mkStore (PolicyStore.roles st) (PolicyStore.agent_groups st)
                (delete name (PolicyStore.agents st))).
  assert (remove_agent_authorization name self
          = (Return true,
             mkService (_credentials_store self) (_credentials_creator self) (Some st1)
                       (peers_list self) (rpc_calls self) (debug_log self))) as Hrm.
  { run_remove. rewrite Hst. simpl. by rewrite Ha. }
  rewrite Hrm. cbn [fst snd]. split; [done |].
  assert (PolicyStore.effective_capabilities st1 name = ∅) as Hempty.
  { unfold PolicyStore.effective_capabilities, PolicyStore.agent_capabilities. simpl.
    rewrite lookup_delete_eq.
    change (PolicyStore.group_capabilities st1 name)
      with (PolicyStore.group_capabilities st name).
    by rewrite Hgroups. }
  erewrite create_agent_run by done. cbn [fst snd]. split; [done |].
  split; [| split].
  - unfold with_manager, with_credentials, ensure_credentials. simpl. by rewrite Hc.
  - unfold with_manager, with_credentials, ensure_credentials. simpl. by rewrite Hc.
  - exists (provision name st1). split.
    + unfold with_manager. cbn [_authz_manager with_credentials fmap option_fmap option_map].
      by rewrite Hempty.
    + unfold provision. rewrite merge_agent_authz_lookup.
      unfold st1. simpl. rewrite lookup_delete_eq. simpl.
      by rewrite !(left_id_L ∅ (∪)).
Qed.

(** Whatever the peer answers to the push, even when the call then
    raises, the protected methods asked for are in the authority's record
    afterwards. *)
Theorem create_or_merge_agent_authz_recorded
    (rpc_get : RpcCall → Outcome unit) self st name protected_rpcs roles rpc pubsub comments :
  _authz_manager self = Some st →
  (get_protected_rpcs name
     (create_or_merge_agent_authz rpc_get name protected_rpcs roles rpc pubsub comments
        self).2).1
  = Return (PolicyStore.protected_of st name ∪ PolicyStore.given protected_rpcs).
Proof.
  intros Hst.
  assert (_authz_manager
            (create_or_merge_agent_authz rpc_get name protected_rpcs roles rpc pubsub
               comments self).2
          = Some (PolicyStore.merge_agent_authz name protected_rpcs roles rpc pubsub
                    comments st)) as Hafter.
  { unfold create_or_merge_agent_authz.
    erewrite bind_run by (by eapply on_authz_authz).
    unfold mbind, mret, Py_bind, Py_ret, try_except, vip_rpc_call, _log_debug, throw,
      gets, modify, with_manager. rewrite Hst.
    destruct (true && truthy_set protected_rpcs); [| done]. cbn [peers_list].
    destruct (bool_decide (name ∈ peers_list self)); [| done].
    destruct (rpc_get _) as [[]|[]]; done. }
  unfold get_protected_rpcs. erewrite on_authz_manager_run by exact Hafter.
  cbn [fst]. unfold AuthorizationManager.get_protected_rpcs, policy_manager,
    PolicyStore.manager, PolicyStore.get_protected_rpcs, gets. cbn [fst].
  rewrite protected_of_merge_agent_authz. by rewrite bool_decide_eq_true_2.
Qed.

(** *** More on [__init__] *)

Lemma init_run_none self :
  _authz_manager self = None →
  __init__ self = (Return (), with_credentials (ensure_all volttron_services) self).
Proof.
  intros Hnone. unfold __init__.
  unfold mbind at 1. unfold Py_bind at 1. rewrite credentials_loop.
  generalize (ensure_all_covers volttron_services AUTH
                (_credentials_store self, _credentials_creator self)).
  assert (_authz_manager (with_credentials (ensure_all volttron_services) self) = None)
    as Hnone1 by done.
  change ((ensure_all volttron_services
             (_credentials_store self, _credentials_creator self)).1)
    with (_credentials_store (with_credentials (ensure_all volttron_services) self)).
  generalize dependent (with_credentials (ensure_all volttron_services) self).
  intros self1 Hnone1 Hcovers.
  destruct Hcovers as [c Hc].
  { unfold volttron_services. apply list_elem_of_further, list_elem_of_here. }
  erewrite bind_run; [| unfold gets; by rewrite Hnone1]. cbv beta iota.
  erewrite bind_run; [| reflexivity].
  erewrite bind_run; [| apply retrieve_run; exact Hc].
  reflexivity.
Qed.

(** With the Policy Store as its manager, or with no manager at all,
    [__init__] on the credentials dictionary returns; afterwards every
    reserved identity has credentials, the credentials held before are
    unchanged, nothing was pushed, and a service without a manager still
    has none. *)
Theorem init_ensures_credentials self :
  let booted := (__init__ self).2 in
  (__init__ self).1 = Return ()
  ∧ (∀ k, k ∈ volttron_services → (has_credentials_for k booted).1 = Return true)
  ∧ (∀ other c, _credentials_store self !! other = Some c →
                _credentials_store booted !! other = Some c)
  ∧ rpc_calls booted = rpc_calls self
  ∧ (_authz_manager self = None → _authz_manager booted = None).
Proof.
  cbv zeta.
  assert (∃ f, __init__ self
               = (Return (),
                  with_manager f (with_credentials (ensure_all volttron_services) self)))
    as [f ->].
  { destruct (_authz_manager self) as [st|] eqn:Hst.
    - exists bootstrap. by apply (init_run self st).
    - exists id. rewrite (init_run_none self Hst).
      unfold with_manager, with_credentials. simpl. by rewrite Hst. }
  cbn [fst snd]. split; [done |]. split; [| split; [| split]].
  - intros k Hk. unfold has_credentials_for. rewrite is_credentials_run. cbn [fst].
    f_equal. apply bool_decide_eq_true_2.
    apply (ensure_all_covers volttron_services k _ Hk).
  - intros other c Hother.
    apply (ensure_all_keeps volttron_services other c
             (_credentials_store self, _credentials_creator self) Hother).
  - done.
  - intros Hnone. unfold with_manager, with_credentials. simpl. by rewrite Hnone.
Qed.

(** Starting the service again on the stores it left behind changes
    nothing: [__init__] run on its own result returns with the service as
    it was, no credential issued and no record, role or group altered. *)
Theorem init_twice self st :
  _authz_manager self = Some st →
  __init__ (__init__ self).2 = (Return (), (__init__ self).2).
Proof.
  intros Hst. rewrite (init_run self st Hst). cbn [snd].
  set (booted := with_manager bootstrap
                   (with_credentials (ensure_all volttron_services) self)).
  assert (_authz_manager booted = Some (bootstrap st)) as Hbooted.
  { unfold booted. by apply with_manager_manager. }
  rewrite (init_run booted (bootstrap st) Hbooted). f_equal.
  unfold booted, with_manager, with_credentials.
  cbn [_credentials_store _credentials_creator _authz_manager peers_list rpc_calls
       debug_log].
  rewrite Hst. cbn [fmap option_fmap option_map].
  rewrite <- surjective_pairing, ensure_all_idemp, bootstrap_idemp. reflexivity.
Qed.

(** After [__init__], [create_agent] for a reserved identity returns
    [True] and changes nothing: the identity has its credentials, and its
    capabilities come from the group "admin_users", so no default record
    is merged into it. *)
Theorem create_agent_reserved_after_init self st k :
  _authz_manager self = Some st →
  k ∈ volttron_services →
  create_agent k (__init__ self).2 = (Return true, (__init__ self).2).
Proof.
  intros Hst Hk. rewrite (init_run self st Hst). cbn [snd].
  set (booted := with_manager bootstrap
                   (with_credentials (ensure_all volttron_services) self)).
  assert (_authz_manager booted = Some (bootstrap st)) as Hbooted.
  { unfold booted. by apply with_manager_manager. }
  rewrite (create_agent_run booted (bootstrap st) k Hbooted). f_equal.
  destruct (ensure_all_covers volttron_services k
              (_credentials_store self, _credentials_creator self) Hk) as [c Hc].
  unfold booted, with_manager, with_credentials, ensure_credentials.
  cbn [_credentials_store _credentials_creator _authz_manager peers_list rpc_calls
       debug_log fst snd].
  rewrite Hst. cbn [fmap option_fmap option_map fst snd].
  rewrite Hc. cbn [fst snd fmap option_fmap option_map].
  by rewrite bootstrap_reserved_truthy.
Qed.

End policy_facts.

(** ** Runs of the service on the Policy Store *)


(** ["agent2"], which has no record and no capability, is refused the
    method ["m"] that ["agent1"] protects. *)
Lemma check_rpc_authorization_protected_run :
  check_rpc_authorization (manager_ops := dot_star_manager)
    "agent2" "agent1.m" ∅ agent1_service
  = (Return false, agent1_service).
Proof.
  apply (check_rpc_authorization_protected dot_star_only agent1_service agent1_store).
  - reflexivity.
  - compute_done.
  - compute_done.
Qed.

Lemma create_agent_twice_witness :
  let first := create_agent (manager_ops := policy_manager dot_star_only)
                 "newagent" seeded_service in
  let second := create_agent (manager_ops := policy_manager dot_star_only)
                  "newagent" first.2 in
  first.1 = Return true
  ∧ second.1 = Return true
  ∧ second.2 = first.2
  ∧ ∃ st1, _authz_manager first.2 = Some st1
           ∧ truthy_capabilities (PolicyStore.effective_capabilities st1 "newagent") = true.
Proof.
  destruct (create_agent_twice dot_star_only seeded_service seeded_store "newagent" eq_refl)
    as (Hfirst & Hsecond & Hsame & Hcaps).
  split; [exact Hfirst |]. split; [exact Hsecond |]. split; [exact Hsame |].
  apply Hcaps. eexists. split; [reflexivity | compute_done].
Defined.

Lemma create_agent_first_provisioning_witness :
  let run := create_agent (manager_ops := policy_manager dot_star_only)
               "newagent" agent1_service in
  run.1 = Return true
  ∧ ∃ st', _authz_manager run.2 = Some st'
           ∧ PolicyStore.agents st' !! "newagent"
             = Some (PolicyStore.mkAgentAuthorization
                       (∅ ∪ {[ "config.update"; "config.initial_update";
                               "rpc.add_protected_rpcs"; "rpc.remove_protected_rpcs" ]})
                       (∅ ∪ {[ mkAgentRole "default_rpc_capabilities"
                                           {[ "identity" := "newagent" ]} ]})
                       ∅ ∅ (Some "default authorization for new user")).
Proof.
  destruct (create_agent_first_provisioning dot_star_only agent1_service agent1_store
              "newagent" eq_refl)
    as (Hret & st' & Hst' & Hrecord & _).
  - compute_done.
  - split; [exact Hret |]. exists st'. split; [exact Hst' | exact Hrecord].
Defined.

Lemma init_protected_rpcs_witness :
  let booted := (__init__ (known := platform_identities)
                   (manager_ops := policy_manager dot_star_only) fresh_service).2 in
  (__init__ (known := platform_identities)
     (manager_ops := policy_manager dot_star_only) fresh_service).1 = Return ()
  ∧ (get_protected_rpcs (manager_ops := policy_manager dot_star_only)
       "platform.auth" booted).1
    = Return {[ "create_agent"; "remove_agent"; "create_or_merge_role";
                "create_or_merge_agent_group"; "create_or_merge_agent_authz";
                "create_protected_topics"; "remove_agents_from_group";
                "add_agents_to_group"; "remove_protected_topics";
                "remove_agent_authorization"; "remove_agent_group"; "remove_role" ]}
  ∧ (get_protected_rpcs (manager_ops := policy_manager dot_star_only)
       "control" booted).1 = Return ∅.
Proof.
  destruct (init_protected_rpcs dot_star_only (known := platform_identities)
              fresh_service eq_refl)
    as (Hret & Hauth & _ & _ & Hothers); [discriminate |].
  split; [exact Hret |]. split; [exact Hauth |].
  apply Hothers; [| discriminate | discriminate].
  do 3 apply list_elem_of_further. apply list_elem_of_here.
Defined.

Lemma init_roles_and_group_witness :
  (__init__ (known := platform_identities)
     (manager_ops := policy_manager dot_star_only) fresh_service).1 = Return ()
  ∧ ∃ st', _authz_manager
             (__init__ (known := platform_identities)
                (manager_ops := policy_manager dot_star_only) fresh_service).2 = Some st'
     ∧ dom (PolicyStore.roles st')
       = {[ "default_rpc_capabilities"; "sync_agent_config"; "admin" ]}
     ∧ PolicyStore.agent_groups st' !! "admin_users"
       = Some (PolicyStore.mkAgentGroup
                 (list_to_set [ "config.store"; "platform.auth"; "control.connection";
                                "control"; "platform"; "platform.health" ])
                 {[ mkAgentRole "admin" ∅ ]} ∅ ∅).
Proof.
  destruct (init_roles_and_group dot_star_only (known := platform_identities)
              fresh_service eq_refl)
    as (Hret & st' & Hst' & _ & Hdom & _ & Hgroup).
  split; [exact Hret |]. exists st'.
  split; [exact Hst' |]. split; [exact Hdom | exact Hgroup].
Defined.

(** ** More runs of the service *)

Lemma create_agent_keeps_credentials_witness :
  _credentials_creator
    (create_agent (manager_ops := dot_star_manager) "agent1" agent1_service).2
  = _credentials_creator agent1_service
  ∧ _credentials_store
      (create_agent (manager_ops := dot_star_manager) "agent1" agent1_service).2
    = _credentials_store agent1_service.
Proof.
  apply (create_agent_keeps_credentials (manager_ops := dot_star_manager)
           agent1_service "agent1" (mkCredentials "agent1" 0)).
  reflexivity.
Defined.

Lemma create_agent_credentials_failure_witness :
  ((create_agent (store_ops := broken_store) (manager_ops := dot_star_manager)
      "agent1" broken_store_service).1 = Raise (OtherError "OSError")
   ∧ _authz_manager
       (create_agent (store_ops := broken_store) (manager_ops := dot_star_manager)
          "agent1" broken_store_service).2 = Some agent1_store)
  ∧ ((create_agent (creator_ops := broken_creator) (manager_ops := dot_star_manager)
        "agent2" broken_creator_service).1 = Raise (OtherError "ValueError")
     ∧ _authz_manager
         (create_agent (creator_ops := broken_creator) (manager_ops := dot_star_manager)
            "agent2" broken_creator_service).2 = Some agent1_store).
Proof.
  split.
  - destruct (create_agent_credentials_failure (store_ops := broken_store)
                (manager_ops := dot_star_manager)
                broken_store_service "agent1" (OtherError "OSError")) as [Hstore _].
    destruct (Hstore ()) as (Hraise & Hmanager & _); [discriminate | reflexivity |].
    split; assumption.
  - destruct (create_agent_credentials_failure (creator_ops := broken_creator)
                (manager_ops := dot_star_manager)
                broken_creator_service "agent2" (OtherError "ValueError")) as [_ Hcreator].
    destruct (Hcreator "agent2" ∅ ()) as (Hraise & Hmanager & _);
      [reflexivity | reflexivity |].
    split; assumption.
Defined.

Lemma create_or_merge_agent_authz_merge_stays_witness :
  let run := create_or_merge_agent_authz (manager_ops := dot_star_manager) rejects
               "agent1" (Some {[ "n" ]}) None None None None agent1_service in
  _authz_manager run.2
  = Some (PolicyStore.merge_agent_authz "agent1" (Some {[ "n" ]}) None None None None
            agent1_store)
  ∧ _credentials_store run.2 = _credentials_store agent1_service
  ∧ _credentials_creator run.2 = _credentials_creator agent1_service
  ∧ peers_list run.2 = peers_list agent1_service.
Proof.
  apply (create_or_merge_agent_authz_merge_stays (manager_ops := dot_star_manager)
           rejects agent1_service agent1_store _ true).
  - reflexivity.
  - reflexivity.
Defined.

Lemma create_or_merge_agent_authz_other_error_witness :
  (create_or_merge_agent_authz (manager_ops := dot_star_manager) times_out
     "agent1" (Some {[ "n" ]}) None None None None agent1_service).1 = Raise Timeout.
Proof.
  apply (create_or_merge_agent_authz_other_error (manager_ops := dot_star_manager)
           times_out agent1_service agent1_store
           (PolicyStore.merge_agent_authz "agent1" (Some {[ "n" ]}) None None None None
              agent1_store)).
  - reflexivity.
  - reflexivity.
  - compute_done.
  - apply list_elem_of_here.
  - reflexivity.
  - discriminate.
  - discriminate.
Defined.

Lemma create_or_merge_agent_authz_merge_fails_witness :
  create_or_merge_agent_authz (manager_ops := dot_star_manager) answers
    "agent1" (Some {[ "n" ]}) None None None None agent1_no_manager
  = (Raise AttributeError, agent1_no_manager)
  ∧ ((create_or_merge_agent_authz (manager_ops := refusing_manager) answers
        "agent1" (Some {[ "n" ]}) None None None None refused_service).1
     = Raise (OtherError "ValueError")
     ∧ rpc_calls
         (create_or_merge_agent_authz (manager_ops := refusing_manager) answers
            "agent1" (Some {[ "n" ]}) None None None None refused_service).2 = []).
Proof.
  split.
  - destruct (create_or_merge_agent_authz_merge_fails (manager_ops := dot_star_manager)
                answers agent1_no_manager "agent1" (Some {[ "n" ]}) None None None None)
      as [Hnone _].
    apply Hnone. reflexivity.
  - destruct (create_or_merge_agent_authz_merge_fails (manager_ops := refusing_manager)
                answers refused_service "agent1" (Some {[ "n" ]}) None None None None)
      as [_ Hrefused].
    destruct (Hrefused () () (OtherError "ValueError")) as (Hraise & Hcalls & _);
      [reflexivity | reflexivity |].
    split; assumption.
Defined.

Lemma create_or_merge_agent_authz_log_witness :
  debug_log (create_or_merge_agent_authz (manager_ops := dot_star_manager) unreachable
               "agent1" (Some {[ "n" ]}) None None None None agent1_service).2
  = [ "Agent agent1 is not running. Authorization changes will get applied on agent start" ].
Proof.
  etrans.
  - apply (create_or_merge_agent_authz_log (manager_ops := dot_star_manager)
             unreachable agent1_service agent1_store
             (PolicyStore.merge_agent_authz "agent1" (Some {[ "n" ]}) None None None None
                agent1_store) true);
      reflexivity.
  - compute_done.
Defined.

Lemma create_agent_no_manager_witness :
  (create_agent (manager_ops := dot_star_manager) "agent2" agent1_no_manager).1
  = Raise AttributeError
  ∧ (has_credentials_for "agent2"
       (create_agent (manager_ops := dot_star_manager) "agent2" agent1_no_manager).2).1
    = Return true
  ∧ _credentials_creator
      (create_agent (manager_ops := dot_star_manager) "agent2" agent1_no_manager).2 = 2.
Proof.
  destruct (create_agent_no_manager (manager_ops := dot_star_manager)
              agent1_no_manager "agent2" eq_refl) as (Hraise & Hcreds & Hnew).
  destruct Hnew as [_ Hcount]; [reflexivity |].
  split; [exact Hraise |]. split; [exact Hcreds | exact Hcount].
Defined.

Lemma create_agent_ensures_credentials_witness :
  (has_credentials_for "agent1"
     (create_agent (manager_ops := dot_star_manager) "agent1" agent1_no_credentials).2).1
  = Return true
  ∧ _credentials_store
      (create_agent (manager_ops := dot_star_manager) "agent1" agent1_no_credentials).2
    = <["agent1" := mkCredentials "agent1" 0]> ∅
  ∧ _credentials_creator
      (create_agent (manager_ops := dot_star_manager) "agent1" agent1_no_credentials).2 = 1.
Proof.
  destruct (create_agent_ensures_credentials (manager_ops := dot_star_manager)
              agent1_no_credentials "agent1") as (Hhas & _ & _ & Hnew).
  destruct Hnew as [Hstore Hcount]; [reflexivity |].
  split; [exact Hhas |]. split; [exact Hstore | exact Hcount].
Defined.

Lemma add_remove_credentials_witness :
  (is_credentials "agent1"
     (add_credentials (mkCredentials "agent1" 7) agent1_no_credentials).2).1 = Return true
  ∧ remove_credentials (mkCredentials "agent1" 7)
      (add_credentials (mkCredentials "agent1" 7) agent1_no_credentials).2
    = (Return (), agent1_no_credentials)
  ∧ remove_credentials (mkCredentials "agent1" 7) agent1_no_credentials
    = (Raise (IdentityNotFound "agent1"), agent1_no_credentials).
Proof.
  destruct (add_remove_credentials agent1_no_credentials (mkCredentials "agent1" 7))
    as (Hfound & Hround & Hmissing & _).
  split; [exact Hfound |]. split; [apply Hround | apply Hmissing]; reflexivity.
Defined.

Lemma remove_agent_removes_both_witness :
  (remove_agent (manager_ops := dot_star_manager) "agent1" agent1_service).1 = Return true
  ∧ (has_credentials_for "agent1"
       (remove_agent (manager_ops := dot_star_manager) "agent1" agent1_service).2).1
    = Return false
  ∧ (get_protected_rpcs (manager_ops := dot_star_manager) "agent1"
       (remove_agent (manager_ops := dot_star_manager) "agent1" agent1_service).2).1
    = Return ∅.
Proof.
  destruct (remove_agent_removes_both dot_star_only agent1_service agent1_store "agent1"
              (mkCredentials "agent1" 0)
              (PolicyStore.mkAgentAuthorization {[ "m" ]} ∅ ∅ ∅ None)
              eq_refl eq_refl eq_refl)
    as (Hret & Hcreds & Hprotected & _).
  split; [exact Hret |]. split; [exact Hcreds | exact Hprotected].
Defined.

Lemma remove_agent_half_done_witness :
  ((remove_agent (manager_ops := dot_star_manager) "agent2" agent2_unrecorded).1
   = Raise (NotFound "agent2")
   ∧ _credentials_store
       (remove_agent (manager_ops := dot_star_manager) "agent2" agent2_unrecorded).2
     !! "agent2" = None)
  ∧ ((remove_agent (manager_ops := dot_star_manager) "agent1" agent1_no_manager).1
     = Raise AttributeError
     ∧ _credentials_store
         (remove_agent (manager_ops := dot_star_manager) "agent1" agent1_no_manager).2
       !! "agent1" = None).
Proof.
  split.
  - destruct (remove_agent_half_done dot_star_only agent2_unrecorded "agent2"
                (mkCredentials "agent2" 0) eq_refl) as [Hrecord _].
    destruct (Hrecord agent1_store eq_refl eq_refl) as (Hraise & Hgone & _).
    split; assumption.
  - destruct (remove_agent_half_done dot_star_only agent1_no_manager "agent1"
                (mkCredentials "agent1" 0) eq_refl) as [_ Hnone].
    apply Hnone. reflexivity.
Defined.

Lemma create_then_remove_agent_witness :
  (create_agent (manager_ops := dot_star_manager) "newagent" agent1_service).1 = Return true
  ∧ remove_agent (manager_ops := dot_star_manager) "newagent"
      (create_agent (manager_ops := dot_star_manager) "newagent" agent1_service).2
    = (Return true,
       mkService (_credentials_store agent1_service) (S (_credentials_creator agent1_service))
                 (Some agent1_store)
                 (peers_list agent1_service) (rpc_calls agent1_service)
                 (debug_log agent1_service)).
Proof.
  apply (create_then_remove_agent dot_star_only agent1_service agent1_store "newagent").
  - reflexivity.
  - reflexivity.
  - reflexivity.
  - compute_done.
Defined.

Lemma reprovision_after_removal_witness :
  let removed := (remove_agent_authorization (manager_ops := dot_star_manager)
                    "agent1" agent1_service).2 in
  (remove_agent_authorization (manager_ops := dot_star_manager)
     "agent1" agent1_service).1 = Return true
  ∧ (create_agent (manager_ops := dot_star_manager) "agent1" removed).1 = Return true
  ∧ _credentials_store (create_agent (manager_ops := dot_star_manager) "agent1" removed).2
    = _credentials_store agent1_service
  ∧ _credentials_creator (create_agent (manager_ops := dot_star_manager) "agent1" removed).2
    = _credentials_creator agent1_service
  ∧ ∃ st', _authz_manager
             (create_agent (manager_ops := dot_star_manager) "agent1" removed).2 = Some st'
      ∧ PolicyStore.agents st' !! "agent1"
        = Some (PolicyStore.mkAgentAuthorization
                  {[ "config.update"; "config.initial_update";
                     "rpc.add_protected_rpcs"; "rpc.remove_protected_rpcs" ]}
                  {[ mkAgentRole "default_rpc_capabilities" {[ "identity" := "agent1" ]} ]}
                  ∅ ∅ (Some "default authorization for new user")).
Proof.
  apply (reprovision_after_removal dot_star_only agent1_service agent1_store "agent1"
           (PolicyStore.mkAgentAuthorization {[ "m" ]} ∅ ∅ ∅ None)).
  - reflexivity.
  - reflexivity.
  - compute_done.
  - eexists. reflexivity.
Defined.

Lemma create_or_merge_agent_authz_recorded_witness :
  (get_protected_rpcs (manager_ops := dot_star_manager) "agent1"
     (create_or_merge_agent_authz (manager_ops := dot_star_manager) rejects
        "agent1" (Some {[ "n" ]}) None None None None agent1_service).2).1
  = Return (PolicyStore.protected_of agent1_store "agent1"
            ∪ PolicyStore.given (Some {[ "n" ]})).
Proof.
  apply (create_or_merge_agent_authz_recorded dot_star_only rejects agent1_service
           agent1_store).
  reflexivity.
Defined.

Lemma init_ensures_credentials_witness :
  (__init__ (known := platform_identities) (manager_ops := dot_star_manager)
     agent1_no_manager).1 = Return ()
  ∧ (has_credentials_for "control"
       (__init__ (known := platform_identities) (manager_ops := dot_star_manager)
          agent1_no_manager).2).1 = Return true
  ∧ _credentials_store
      (__init__ (known := platform_identities) (manager_ops := dot_star_manager)
         agent1_no_manager).2 !! "agent1" = Some (mkCredentials "agent1" 0)
  ∧ _authz_manager
      (__init__ (known := platform_identities) (manager_ops := dot_star_manager)
         agent1_no_manager).2 = None.
Proof.
  destruct (init_ensures_credentials dot_star_only (known := platform_identities)
              agent1_no_manager) as (Hret & Hreserved & Hkept & _ & Hnone).
  split; [exact Hret |]. split; [| split].
  - apply (Hreserved "control"). do 3 apply list_elem_of_further. apply list_elem_of_here.
  - apply Hkept. reflexivity.
  - apply Hnone. reflexivity.
Defined.

Lemma init_twice_witness :
  __init__ (known := platform_identities) (manager_ops := dot_star_manager)
    (__init__ (known := platform_identities) (manager_ops := dot_star_manager)
       fresh_service).2
  = (Return (),
     (__init__ (known := platform_identities) (manager_ops := dot_star_manager)
        fresh_service).2).
Proof.
  apply (init_twice dot_star_only (known := platform_identities)
           fresh_service PolicyStore.empty).
  reflexivity.
Defined.

Lemma create_agent_reserved_after_init_witness :
  create_agent (manager_ops := dot_star_manager) "control"
    (__init__ (known := platform_identities) (manager_ops := dot_star_manager)
       fresh_service).2
  = (Return true,
     (__init__ (known := platform_identities) (manager_ops := dot_star_manager)
        fresh_service).2).
Proof.
  apply (create_agent_reserved_after_init dot_star_only (known := platform_identities)
           fresh_service PolicyStore.empty "control").
  - reflexivity.
  - do 3 apply list_elem_of_further. apply list_elem_of_here.
Defined.
